(** * nearbychat: the HTTP backend (signup, update-location, nearby-users,
      send-message, get-messages) over a key-value store.

    The handlers of the server entry file are embedded as functions in a
    small state-and-exception monad.  Everything the handlers obtain from
    outside (the identity provider, the request, the clock, storage
    failures, the built-ins of the JavaScript runtime) is an explicit
    argument, so that each handler is a total, executable function. *)

From Stdlib Require Import ZArith String Ascii List Bool Lia PrimFloat FloatOps SpecFloat.
From Stdlib Require Import Sorting.Sorted.
From stdpp Require Import base option list gmap strings fin_maps pretty.

#[local] Set Warnings "-register-all".

Local Open Scope string_scope.
Local Open Scope Z_scope.

(** ** JavaScript values *)

(** Values as the handlers see them: what [c.req.json()] parses, what the
    key-value store holds and what [c.json] sends.  An object is the list of
    its own properties in insertion order; numbers are binary64; the
    characters of a string stand for its code units. *)
Inductive JValue : Type :=
| JUndefined
| JNull
| JBool (b : bool)
| JNum (x : float)
| JStr (s : string)
| JArr (items : list JValue)
| JObj (fields : list (string * JValue)).

(** Thrown values.  [String(error)] of an [Error] is [name: message]. *)
Record Exn : Type := mkExn { ename : string; emsg : string }.

Definition exnString (e : Exn) : string := ename e ++ ": " ++ emsg e.

Definition TypeError (m : string) : Exn := mkExn "TypeError" m.
Definition SyntaxError (m : string) : Exn := mkExn "SyntaxError" m.

(** Built-ins of the runtime that the handlers call and whose algorithms are
    not part of the repository. *)
Class JsRuntime : Type := {
  (** [Number.prototype.toString] *)
  numberToString : float -> string;
  (** [new Date(ms).toISOString()] *)
  toISOString : Z -> string;
  (** [new Date(v).getTime()]; [None] is NaN (an invalid date) *)
  dateGetTime : JValue -> option Z
}.

Section Values.
Context {R : JsRuntime}.

Definition isNullish (v : JValue) : bool :=
  match v with
  | JUndefined | JNull => true
  | _ => false
  end.

(** ToBoolean *)
Definition truthy (v : JValue) : bool :=
  match v with
  | JUndefined | JNull => false
  | JBool b => b
  | JNum x => negb (PrimFloat.is_zero x || PrimFloat.is_nan x)
  | JStr s => negb (s =? "")%string
  | JArr _ | JObj _ => true
  end.

(** ToString; an array is its elements joined by a comma, with null and
    undefined elements written as the empty string.  An object is a plain
    object and is written by [Object.prototype.toString]; the ids that the
    handlers turn into text are strings.  (An object of a parsed body that
    carries a property of its own named toString has no string form: its
    conversion throws.  Such an object is not among the values covered
    here.) *)
Fixpoint toString (v : JValue) : string :=
  match v with
  | JUndefined => "undefined"
  | JNull => "null"
  | JBool true => "true"
  | JBool false => "false"
  | JNum x => numberToString x
  | JStr s => s
  | JArr items =>
      (fix joinComma (l : list JValue) : string :=
         match l with
         | [] => ""
         | [x] => if isNullish x then "" else toString x
         | x :: rest =>
             (if isNullish x then "" else toString x) ++ "," ++ joinComma rest
         end) items
  | JObj _ => "[object Object]"
  end.

(** The text an element contributes to [Array.prototype.join]. *)
Definition joinElement (v : JValue) : string :=
  if isNullish v then "" else toString v.

(** Own property lookup in a property list. *)
Fixpoint lookupField (name : string) (fs : list (string * JValue)) : option JValue :=
  match fs with
  | [] => None
  | (k, v) :: rest => if (k =? name)%string then Some v else lookupField name rest
  end.

(** [o.name = v] on a property list: overwrite in place, or append. *)
Fixpoint assignField (name : string) (v : JValue) (fs : list (string * JValue))
  : list (string * JValue) :=
  match fs with
  | [] => [(name, v)]
  | (k, w) :: rest =>
      if (k =? name)%string then (k, v) :: rest
      else (k, w) :: assignField name v rest
  end.

(** [[a, b].sort()] with the default comparator: undefined goes last,
    everything else is ordered by its string form; equal elements keep
    their order. *)
Definition sortPair (a b : JValue) : JValue * JValue :=
  match a, b with
  | _, JUndefined => (a, b)
  | JUndefined, _ => (b, a)
  | _, _ => if String.ltb (toString b) (toString a) then (b, a) else (a, b)
  end.

(** [[userId, recipientId].sort().join(':')] *)
Definition conversationId (userId : string) (recipientId : JValue) : string :=
  let '(a, b) := sortPair (JStr userId) recipientId in
  joinElement a ++ ":" ++ joinElement b.

End Values.

(** ** The key-value store *)

Abbreviation Store := (gmap string JValue).

(** Modelled from the spec: [kv.get] of the key-value module, which is not
    among the sources.  It returns the stored value or a "not found" signal;
    the handlers test that signal with [if (userData)], so it is
    [undefined]. *)
Definition storeGet (key : string) (s : Store) : JValue :=
  default JUndefined (s !! key).

(** Modelled from the spec: [kv.set] of the key-value module, an upsert that
    overwrites unconditionally. *)
Definition storeSet (key : string) (v : JValue) (s : Store) : Store :=
  <[key := v]> s.

(** Modelled from the spec: [kv.getByPrefix] of the key-value module, the
    values of all keys that start with the prefix, in no promised order
    (here: the order in which the map enumerates its entries). *)
Definition storeGetByPrefix (p : string) (s : Store) : list JValue :=
  (List.filter (fun kv : string * JValue => String.prefix p kv.1) (map_to_list s)).*2.

(** ** The outside world of one request *)

Inductive Outcome (A : Type) : Type :=
| Done (a : A)
| Thrown (e : Exn).
Arguments Done {A} a.
Arguments Thrown {A} e.

(** Sequencing of steps that may throw. *)
Definition andThen {A B} (o : Outcome A) (k : A -> Outcome B) : Outcome B :=
  match o with
  | Done a => k a
  | Thrown e => Thrown e
  end.

Declare Scope outcome_scope.
Delimit Scope outcome_scope with outcome.
Notation "x <~ o ;; k" := (andThen o (fun x => k))
  (at level 100, o at next level, right associativity) : outcome_scope.

(** The user object of the identity provider: its id and its JSON form. *)
Record AuthUser : Type := mkAuthUser { uid : string; userJson : JValue }.

(** [{ data, error }] of [auth.admin.createUser]. *)
Inductive CreateResult : Type :=
| Created (user : AuthUser)
| CreateError (message : string).

(** [{ data: { user }, error }] of [auth.getUser]; without a user the error,
    when there is one, carries a message. *)
Inductive GetUserResult : Type :=
| UserFound (user : AuthUser)
| NoUser (message : option string).

Record Env : Type := mkEnv {
  (** the provider's answer to createUser(email, password, name, avatar) *)
  authCreateUser : JValue -> JValue -> JValue -> JValue -> Outcome CreateResult;
  (** the provider's answer to getUser(accessToken) *)
  authGetUser : option string -> Outcome GetUserResult;
  (** the n-th reading of the clock during the request, in milliseconds *)
  clock : nat -> Z;
  (** whether the n-th call of the key-value module during the request fails *)
  kvFault : nat -> option Exn
}.

Record Request : Type := mkRequest {
  (** the Authorization header *)
  authorization : option string;
  (** the body as JSON; [None] when it does not parse *)
  jsonBody : option JValue;
  (** the path parameter of get-messages *)
  paramRecipientId : string
}.

Record Response : Type := mkResponse { status : Z; body : JValue }.

Record State : Type := mkState {
  store : Store;
  logs : list string;
  clockReads : nat;
  kvCalls : nat
}.

(** ** The handler monad: state and exceptions *)

Definition M (A : Type) : Type := State -> State * Outcome A.

Definition ret {A} (a : A) : M A := fun st => (st, Done a).

Definition throw {A} (e : Exn) : M A := fun st => (st, Thrown e).

Definition bind {A B} (m : M A) (k : A -> M B) : M B :=
  fun st =>
    match m st with
    | (st', Done a) => k a st'
    | (st', Thrown e) => (st', Thrown e)
    end.

(** [try { m } catch (error) { h error }] *)
Definition tryCatch {A} (m : M A) (h : Exn -> M A) : M A :=
  fun st =>
    match m st with
    | (st', Done a) => (st', Done a)
    | (st', Thrown e) => h e st'
    end.

Declare Scope handler_scope.
Delimit Scope handler_scope with handler.
Notation "x <- m ;; k" := (bind m (fun x => k))
  (at level 100, m at next level, right associativity) : handler_scope.
Notation "m ;;; k" := (bind m (fun _ => k))
  (at level 100, right associativity) : handler_scope.
Local Open Scope handler_scope.

Definition liftOutcome {A} (o : Outcome A) : M A :=
  match o with
  | Done a => ret a
  | Thrown e => throw e
  end.

(** [console.log(line)] *)
Definition consoleLog (line : string) : M unit :=
  fun st => (mkState (store st) (logs st ++ [line]) (clockReads st) (kvCalls st), Done tt).

(** [Date.now()] and [new Date()]: the next reading of the clock. *)
Definition now (env : Env) : M Z :=
  fun st =>
    (mkState (store st) (logs st) (S (clockReads st)) (kvCalls st),
     Done (clock env (clockReads st))).

(** A call of the key-value module: it fails when the environment says so,
    and otherwise reads or writes the store. *)
Definition kvCall {A} (env : Env) (op : Store -> Store * A) : M A :=
  fun st =>
    match kvFault env (kvCalls st) with
    | Some e => (mkState (store st) (logs st) (clockReads st) (S (kvCalls st)), Thrown e)
    | None =>
        let '(s', a) := op (store st) in
        (mkState s' (logs st) (clockReads st) (S (kvCalls st)), Done a)
    end.

Definition kvGet (env : Env) (key : string) : M JValue :=
  kvCall env (fun s => (s, storeGet key s)).

Definition kvSet (env : Env) (key : string) (v : JValue) : M unit :=
  kvCall env (fun s => (storeSet key v s, tt)).

Definition kvGetByPrefix (env : Env) (p : string) : M (list JValue) :=
  kvCall env (fun s => (s, storeGetByPrefix p s)).

(** [await c.req.json()] *)
Definition reqJson (req : Request) : M JValue :=
  match jsonBody req with
  | Some v => ret v
  | None => throw (SyntaxError "Unexpected token in JSON")
  end.

(** [v.name], also as it is read by a destructuring pattern: reading a
    property of null or undefined throws; a primitive or an array has none
    of the names the handlers read. *)
Definition readProp (v : JValue) (name : string) : Outcome JValue :=
  match v with
  | JUndefined => Thrown (TypeError "Cannot read properties of undefined")
  | JNull => Thrown (TypeError "Cannot read properties of null")
  | JObj fs => Done (default JUndefined (lookupField name fs))
  | _ => Done JUndefined
  end.

Definition prop (v : JValue) (name : string) : M JValue :=
  liftOutcome (readProp v name).

(** [v === s] for a string [s] *)
Definition strictEqString (v : JValue) (s : string) : bool :=
  match v with
  | JStr t => (t =? s)%string
  | _ => false
  end.

(** [Array.prototype.filter] and [Array.prototype.map] with a callback that
    may throw: the first throw ends the traversal. *)
Fixpoint filterOutcome {A} (f : A -> Outcome bool) (l : list A) : Outcome (list A) :=
  match l with
  | [] => Done []
  | x :: rest =>
      match f x with
      | Thrown e => Thrown e
      | Done keep =>
          match filterOutcome f rest with
          | Thrown e => Thrown e
          | Done kept => Done (if keep then x :: kept else kept)
          end
      end
  end.

Fixpoint mapOutcome {A B} (f : A -> Outcome B) (l : list A) : Outcome (list B) :=
  match l with
  | [] => Done []
  | x :: rest =>
      match f x with
      | Thrown e => Thrown e
      | Done y =>
          match mapOutcome f rest with
          | Thrown e => Thrown e
          | Done ys => Done (y :: ys)
          end
      end
  end.

(** [v.name = x] in a module (strict mode): it throws on null, undefined
    and primitives.  A named property set on an array is not part of its
    JSON form, so the array is left as it is. *)
Definition assign (v : JValue) (name : string) (x : JValue) : M JValue :=
  match v with
  | JObj fs => ret (JObj (assignField name x fs))
  | JArr items => ret (JArr items)
  | JUndefined => throw (TypeError "Cannot set properties of undefined")
  | JNull => throw (TypeError "Cannot set properties of null")
  | _ => throw (TypeError "Cannot create property")
  end.

(** [c.json(body, status)]: the response with the value that the handler
    hands over.  What goes out is the JSON text of that value; [sent]
    below gives the response as its receiver reads it. *)
Definition json (b : JValue) (code : Z) : M Response := ret (mkResponse code b).

(** [s.split(' ')] *)
Fixpoint splitOn (sep : ascii) (s : string) : list string :=
  match s with
  | EmptyString => [EmptyString]
  | String ch rest =>
      if Ascii.eqb ch sep then EmptyString :: splitOn sep rest
      else match splitOn sep rest with
           | [] => [String ch EmptyString]
           | w :: ws => String ch w :: ws
           end
  end.

(** [c.req.header('Authorization')?.split(' ')[1]] *)
Definition accessToken (req : Request) : option string :=
  match authorization req with
  | None => None
  | Some h => nth_error (splitOn " "%char h) 1
  end.

(** [authError?.message] inside a template literal *)
Definition messageText (m : option string) : string := default "undefined" m.

Definition errorBody (text : string) : JValue := JObj [("error", JStr text)].

(** ** Sorting the fetched messages *)

(** [Array.prototype.sort(cmp)] as a stable insertion sort; a throw of the
    comparator ends it.  (An array that the store returns holds JSON
    values; undefined, which a sort would set aside without comparing it,
    is not among them.) *)
Fixpoint insertBy {A} (cmp : A -> A -> Outcome Z) (x : A) (l : list A)
  : Outcome (list A) :=
  match l with
  | [] => Done [x]
  | y :: rest =>
      (c <~ cmp x y ;;
       if c <=? 0 then Done (x :: y :: rest)
       else (placed <~ insertBy cmp x rest ;; Done (y :: placed)))%outcome
  end.

Fixpoint sortBy {A} (cmp : A -> A -> Outcome Z) (l : list A) : Outcome (list A) :=
  match l with
  | [] => Done []
  | x :: rest => (sorted <~ sortBy cmp rest ;; insertBy cmp x sorted)%outcome
  end.

Section Handlers.
Context {R : JsRuntime}.
Variable env : Env.
Variable req : Request.

(** The comparator of get-messages:
    [new Date(a.timestamp).getTime() - new Date(b.timestamp).getTime()];
    a NaN difference counts as 0 in a sort. *)
Definition compareTimestamps (a b : JValue) : Outcome Z :=
  (ta <~ readProp a "timestamp" ;;
   tb <~ readProp b "timestamp" ;;
   Done (match dateGetTime ta, dateGetTime tb with
         | Some x, Some y => x - y
         | _, _ => 0
         end))%outcome.

(** Health check endpoint *)
Definition health : M Response :=
  json (JObj [("status", JStr "ok")]) 200.

(** Sign up endpoint: the [try] block *)
Definition signupTry : M Response :=
  payload <- reqJson req ;;
  email <- prop payload "email" ;;
  password <- prop payload "password" ;;
  name <- prop payload "name" ;;
  avatar <- prop payload "avatar" ;;
  created <- liftOutcome (authCreateUser env email password name avatar) ;;
  match created with
  | CreateError message =>
      consoleLog ("Sign up error: " ++ message) ;;;
      json (errorBody message) 400
  | Created user =>
      t <- now env ;;
      kvSet env ("user:" ++ uid user)
        (JObj [("id", JStr (uid user));
               ("email", email);
               ("name", name);
               ("avatar", avatar);
               ("latitude", JNull);
               ("longitude", JNull);
               ("lastSeen", JStr (toISOString t))]) ;;;
      json (JObj [("success", JBool true); ("user", userJson user)]) 200
  end.

(** Sign up endpoint *)
Definition signup : M Response :=
  tryCatch signupTry
    (fun error =>
       consoleLog ("Sign up error: " ++ exnString error) ;;;
       json (errorBody (exnString error)) 500).

(** Update user location: the [try] block *)
Definition updateLocationTry : M Response :=
  found <- liftOutcome (authGetUser env (accessToken req)) ;;
  match found with
  | NoUser authError =>
      consoleLog ("Update location unauthorized: " ++ messageText authError) ;;;
      json (errorBody "Unauthorized") 401
  | UserFound user =>
      payload <- reqJson req ;;
      latitude <- prop payload "latitude" ;;
      longitude <- prop payload "longitude" ;;
      userData <- kvGet env ("user:" ++ uid user) ;;
      (if truthy userData then
         d1 <- assign userData "latitude" latitude ;;
         d2 <- assign d1 "longitude" longitude ;;
         t <- now env ;;
         d3 <- assign d2 "lastSeen" (JStr (toISOString t)) ;;
         kvSet env ("user:" ++ uid user) d3
       else ret tt) ;;;
      json (JObj [("success", JBool true)]) 200
  end.

(** Update user location *)
Definition updateLocation : M Response :=
  tryCatch updateLocationTry
    (fun error =>
       consoleLog ("Update location error: " ++ exnString error) ;;;
       json (errorBody (exnString error)) 500).

(** The filter callback of nearby-users:
    [u.id !== user.id && u.latitude && u.longitude], kept when truthy. *)
Definition isNearby (userId : string) (u : JValue) : Outcome bool :=
  (i <~ readProp u "id" ;;
   if negb (strictEqString i userId) then
     latitude <~ readProp u "latitude" ;;
     if truthy latitude then
       longitude <~ readProp u "longitude" ;;
       Done (truthy longitude)
     else Done false
   else Done false)%outcome.

(** The map callback of nearby-users. *)
Definition publicFields (u : JValue) : Outcome JValue :=
  (i <~ readProp u "id" ;;
   name <~ readProp u "name" ;;
   avatar <~ readProp u "avatar" ;;
   latitude <~ readProp u "latitude" ;;
   longitude <~ readProp u "longitude" ;;
   lastSeen <~ readProp u "lastSeen" ;;
   Done (JObj [("id", i);
               ("name", name);
               ("avatar", avatar);
               ("latitude", latitude);
               ("longitude", longitude);
               ("lastSeen", lastSeen)]))%outcome.

(** Get nearby users: the [try] block *)
Definition nearbyUsersTry : M Response :=
  found <- liftOutcome (authGetUser env (accessToken req)) ;;
  match found with
  | NoUser authError =>
      consoleLog ("Get nearby users unauthorized: " ++ messageText authError) ;;;
      json (errorBody "Unauthorized") 401
  | UserFound user =>
      allUsers <- kvGetByPrefix env "user:" ;;
      located <- liftOutcome (filterOutcome (isNearby (uid user)) allUsers) ;;
      nearby <- liftOutcome (mapOutcome publicFields located) ;;
      json (JObj [("users", JArr nearby)]) 200
  end.

(** Get nearby users *)
Definition nearbyUsers : M Response :=
  tryCatch nearbyUsersTry
    (fun error =>
       consoleLog ("Get nearby users error: " ++ exnString error) ;;;
       json (errorBody (exnString error)) 500).

(** The key under which send-message stores a message. *)
Definition messageKey (conversation : string) (millis : Z) : string :=
  "message:" ++ conversation ++ ":" ++ pretty millis.

(** Send message: the [try] block *)
Definition sendMessageTry : M Response :=
  found <- liftOutcome (authGetUser env (accessToken req)) ;;
  match found with
  | NoUser authError =>
      consoleLog ("Send message unauthorized: " ++ messageText authError) ;;;
      json (errorBody "Unauthorized") 401
  | UserFound user =>
      payload <- reqJson req ;;
      recipientId <- prop payload "recipientId" ;;
      message <- prop payload "message" ;;
      millis <- now env ;;
      t <- now env ;;
      let messageData :=
        JObj [("senderId", JStr (uid user));
              ("recipientId", recipientId);
              ("message", message);
              ("timestamp", JStr (toISOString t))] in
      kvSet env (messageKey (conversationId (uid user) recipientId) millis)
        messageData ;;;
      json (JObj [("success", JBool true); ("message", messageData)]) 200
  end.

(** Send message *)
Definition sendMessage : M Response :=
  tryCatch sendMessageTry
    (fun error =>
       consoleLog ("Send message error: " ++ exnString error) ;;;
       json (errorBody (exnString error)) 500).

(** Get messages for a conversation: the [try] block *)
Definition getMessagesTry : M Response :=
  found <- liftOutcome (authGetUser env (accessToken req)) ;;
  match found with
  | NoUser authError =>
      consoleLog ("Get messages unauthorized: " ++ messageText authError) ;;;
      json (errorBody "Unauthorized") 401
  | UserFound user =>
      let recipientId := paramRecipientId req in
      messages <- kvGetByPrefix env
        ("message:" ++ conversationId (uid user) (JStr recipientId)) ;;
      sorted <- liftOutcome (sortBy compareTimestamps messages) ;;
      json (JObj [("messages", JArr sorted)]) 200
  end.

(** Get messages for a conversation *)
Definition getMessages : M Response :=
  tryCatch getMessagesTry
    (fun error =>
       consoleLog ("Get messages error: " ++ exnString error) ;;;
       json (errorBody (exnString error)) 500).

End Handlers.

(** ** Serving a request *)

(** What a computation leaves behind: the store, the lines it has
    written with [console.log], the response. *)
Record Served : Type := mkServed {
  newStore : Store;
  logged : list string;
  response : Response
}.

(** A handler runs on the store with a fresh request context.  A throw that
    escapes a handler is answered by the framework with a plain 500.
    Applied to a handler, [serve] gives what the handler does by itself;
    [fetch] below runs the handler as the application does, under its
    logger middleware. *)
Definition serve (handler : M Response) (s : Store) : Served :=
  match handler (mkState s [] 0%nat 0%nat) with
  | (st, Done r) => mkServed (store st) (logs st) r
  | (st, Thrown _) =>
      mkServed (store st) (logs st) (mkResponse 500 (JStr "Internal Server Error"))
  end.

(** ** A concrete runtime, for running the handlers on examples *)

Module Sample.

(** Days since 1970-01-01 to (year, month, day) in the proleptic Gregorian
    calendar. *)
Definition civilFromDays (days : Z) : Z * Z * Z :=
  let z := days + 719468 in
  let era := z / 146097 in
  let doe := z - era * 146097 in
  let yoe := (doe - doe / 1460 + doe / 36524 - doe / 146096) / 365 in
  let doy := doe - (365 * yoe + yoe / 4 - yoe / 100) in
  let mp := (5 * doy + 2) / 153 in
  let d := doy - (153 * mp + 2) / 5 + 1 in
  let m := if mp <? 10 then mp + 3 else mp - 9 in
  let y := yoe + era * 400 in
  (if m <=? 2 then y + 1 else y, m, d).

Definition daysFromCivil (y m d : Z) : Z :=
  let y' := if m <=? 2 then y - 1 else y in
  let era := y' / 400 in
  let yoe := y' - era * 400 in
  let doy := (153 * (if 2 <? m then m - 3 else m + 9) + 2) / 5 + d - 1 in
  let doe := yoe * 365 + yoe / 4 - yoe / 100 + doy in
  era * 146097 + doe - 719468.

Definition digit (n : Z) : ascii := ascii_of_nat (48 + Z.to_nat (n mod 10)).

(** [n] written with exactly [width] decimal digits *)
Fixpoint padded (width : nat) (n : Z) : string :=
  match width with
  | O => EmptyString
  | S w => padded w (n / 10) ++ String (digit n) EmptyString
  end.

(** [YYYY-MM-DDTHH:mm:ss.sssZ] *)
Definition isoText (y m d hh mm ss ms : Z) : string :=
  padded 4 y ++ "-" ++ padded 2 m ++ "-" ++ padded 2 d ++ "T"
    ++ padded 2 hh ++ ":" ++ padded 2 mm ++ ":" ++ padded 2 ss ++ "."
    ++ padded 3 ms ++ "Z".

Definition isoString (millis : Z) : string :=
  let days := millis / 86400000 in
  let rest := millis mod 86400000 in
  let '(y, m, d) := civilFromDays days in
  isoText y m d (rest / 3600000) (rest / 60000 mod 60) (rest / 1000 mod 60)
    (rest mod 1000).

(** The value of a string of decimal digits. *)
Fixpoint digitsFrom (acc : Z) (s : string) : option Z :=
  match s with
  | EmptyString => Some acc
  | String ch rest =>
      let n := Z.of_nat (nat_of_ascii ch) - 48 in
      if (0 <=? n) && (n <=? 9) then digitsFrom (10 * acc + n) rest else None
  end.

Definition numberAt (start len : nat) (s : string) : option Z :=
  digitsFrom 0 (substring start len s).

(** The instant a text in the format of [isoString] denotes; a text that
    [isoString] does not write is no date. *)
Definition parseIso (s : string) : option Z :=
  match numberAt 0 4 s, numberAt 5 2 s, numberAt 8 2 s,
        numberAt 11 2 s, numberAt 14 2 s, numberAt 17 2 s, numberAt 20 3 s with
  | Some y, Some m, Some d, Some hh, Some mm, Some ss, Some ms =>
      let t := daysFromCivil y m d * 86400000
               + hh * 3600000 + mm * 60000 + ss * 1000 + ms in
      if (isoString t =? s)%string then Some t else None
  | _, _, _, _, _, _, _ => None
  end.

(** A finite binary64 number as sign and magnitude [m * 2 ^ e]. *)
Definition finiteParts (x : float) : option (bool * Z * Z) :=
  match FloatOps.Prim2SF x with
  | SpecFloat.S754_zero negative => Some (negative, 0, 0)
  | SpecFloat.S754_finite negative m e => Some (negative, Z.pos m, e)
  | _ => None
  end.

(** The integer a binary64 number denotes, when it denotes one. *)
Definition integerOf (x : float) : option Z :=
  match finiteParts x with
  | Some (negative, m, e) =>
      let magnitude :=
        if 0 <=? e then Some (m * 2 ^ e)
        else if m mod 2 ^ (- e) =? 0 then Some (m / 2 ^ (- e))
        else None in
      (fun v : Z => if negative then - v else v) <$> magnitude
  | None => None
  end.

(** A finite binary64 number rounded towards zero. *)
Definition truncated (x : float) : option Z :=
  match finiteParts x with
  | Some (negative, m, e) =>
      let magnitude := if 0 <=? e then m * 2 ^ e else m / 2 ^ (- e) in
      Some (if negative then - magnitude else magnitude)
  | None => None
  end.

(** Integers print in decimal; the examples print no other number. *)
Definition printNumber (x : float) : string :=
  match integerOf x with
  | Some n => pretty n
  | None => "NaN"
  end.

(** The time value of [new Date(v)] for the values the examples use: a text
    in the format of [isoString], a number, a boolean or null. *)
Definition dateTime (v : JValue) : option Z :=
  match v with
  | JStr s => parseIso s
  | JNum x => truncated x
  | JBool b => Some (if b then 1 else 0)
  | JNull => Some 0
  | _ => None
  end.

#[export] Instance runtime : JsRuntime := {|
  numberToString := printNumber;
  toISOString := isoString;
  dateGetTime := dateTime
|}.

End Sample.

(** ** The endpoints *)

Inductive Endpoint : Type :=
| Signup
| UpdateLocation
| NearbyUsers
| SendMessage
| GetMessages.

Section Endpoints.
Context {R : JsRuntime}.


Definition handler (ep : Endpoint) (env : Env) (req : Request) : M Response :=
  match ep with
  | Signup => signup env req
  | UpdateLocation => updateLocation env req
  | NearbyUsers => nearbyUsers env req
  | SendMessage => sendMessage env req
  | GetMessages => getMessages env req
  end.

(** The endpoints that resolve a bearer token. *)
Definition authenticated (ep : Endpoint) : bool :=
  match ep with
  | Signup => false
  | _ => true
  end.

End Endpoints.

(** The state in which a handler starts. *)
Definition initial (s : Store) : State := mkState s [] 0%nat 0%nat.

(** ** Properties of stores and results used in the statements *)

Section Predicates.
Context {R : JsRuntime}.

(** A stored message whose timestamp is a date. *)
Definition datedMessage (v : JValue) : bool :=
  match v with
  | JObj fs =>
      match lookupField "timestamp" fs with
      | Some ts => bool_decide (is_Some (dateGetTime ts))
      | None => false
      end
  | _ => false
  end.

(** Every value under a [message:] key is a dated message. *)
Definition messagesDated (s : Store) : Prop :=
  forall key v, s !! key = Some v -> String.prefix "message:" key = true ->
                datedMessage v = true.

(** The stores that requests build from the empty store, in a world whose
    clock readings are dates. *)
Inductive reachable : Store -> Prop :=
| reachable_empty : reachable ∅
| reachable_served (ep : Endpoint) (env : Env) (req : Request) (s : Store) :
    reachable s ->
    (forall n, is_Some (dateGetTime (JStr (toISOString (clock env n))))) ->
    reachable (newStore (serve (handler ep env req) s)).

(** The [timestamp] property of a stored value. *)
Definition timestampOf (v : JValue) : JValue :=
  match v with
  | JObj fs => default JUndefined (lookupField "timestamp" fs)
  | _ => JUndefined
  end.

(** [a] is not later than [b], both timestamps being dates. *)
Definition timestampLe (a b : JValue) : Prop :=
  match dateGetTime (timestampOf a), dateGetTime (timestampOf b) with
  | Some ta, Some tb => ta <= tb
  | _, _ => False
  end.

(** A profile with its [email] property blanked. *)
Definition withoutEmail (v : JValue) : JValue :=
  match v with
  | JObj fs =>
      JObj ((fun kv : string * JValue =>
               if (kv.1 =? "email")%string then (kv.1, JNull) else kv) <$> fs)
  | _ => v
  end.

(** The message that send-message writes and returns. *)
Definition messageFrom (sender : string) (recipientId text : JValue) (t : Z) : JValue :=
  JObj [("senderId", JStr sender);
        ("recipientId", recipientId);
        ("message", text);
        ("timestamp", JStr (toISOString t))].

(** The properties of a user object in the answer of nearby-users. *)
Definition publicNames : list string :=
  ["id"; "name"; "avatar"; "latitude"; "longitude"; "lastSeen"].

(** The names of the own properties of an object. *)
Definition fieldNames (v : JValue) : list string :=
  match v with
  | JObj fs => fs.*1
  | _ => []
  end.

End Predicates.

(** ** A concrete world, for running the handlers on examples *)

Module Scenario.
Import Sample.

(** A provider that knows the users [known] (the token of a user is the
    user's id) and refuses to register the emails in [taken]. *)
Definition provider (known taken : list string) (newId : string)
           (times : nat -> Z) (faults : nat -> option Exn) : Env :=
  {| authCreateUser := fun email _ _ _ =>
       if existsb (String.eqb (toString email)) taken
       then Done (CreateError "A user with this email address has already been registered")
       else Done (Created (mkAuthUser newId (JObj [("id", JStr newId); ("email", email)])));
     authGetUser := fun token =>
       match token with
       | Some t =>
           if existsb (String.eqb t) known
           then Done (UserFound (mkAuthUser t (JObj [("id", JStr t)])))
           else Done (NoUser (Some "invalid JWT"))
       | None => Done (NoUser (Some "Auth session missing!"))
       end;
     clock := times;
     kvFault := faults |}.

Definition noFaults : nat -> option Exn := fun _ => None.

(** The registered users; the provider issues ids of one length. *)
Definition users : list string := ["ann"; "bob"; "cat"].

(** The world at time [t]; a signup in it creates the user [newId]. *)
Definition registering (newId : string) (t : Z) : Env :=
  provider users ["taken@example.com"] newId (fun _ => t) noFaults.

Definition world (t : Z) : Env := registering "dora" t.

(** The world at time [t] with a store that fails at every call. *)
Definition storeDown (t : Z) : Env :=
  provider users ["taken@example.com"] "dora" (fun _ => t)
    (fun _ => Some (mkExn "Error" "connection refused")).

Definition bearer (user : string) (payload : option JValue) (recipient : string)
  : Request :=
  mkRequest (Some ("Bearer " ++ user)) payload recipient.

Definition sendBody (recipient text : string) : option JValue :=
  Some (JObj [("recipientId", JStr recipient); ("message", JStr text)]).

Definition locationBody (latitude longitude : float) : option JValue :=
  Some (JObj [("latitude", JNum latitude); ("longitude", JNum longitude)]).

Definition signupBody (email name : string) : option JValue :=
  Some (JObj [("email", JStr email); ("password", JStr "secret");
              ("name", JStr name); ("avatar", JStr ":)")]).

Definition t0 : Z := 1700000000000.

(** bob and ann have signed up. *)
Definition signedUp : Store :=
  newStore
    (serve (signup (registering "ann" t0)
              (bearer "" (signupBody "ann@example.com" "Ann") ""))
       (newStore
          (serve (signup (registering "bob" t0)
                    (bearer "" (signupBody "bob@example.com" "Bob") "")) ∅))).

(** bob has then reported a position on the equator. *)
Definition bobOnEquator : Store :=
  newStore
    (serve (updateLocation (world (t0 + 1000))
              (bearer "bob" (locationBody 0 10) "")) signedUp).

(** bob has instead reported a position off the equator. *)
Definition bobLocated : Store :=
  newStore
    (serve (updateLocation (world (t0 + 1000))
              (bearer "bob" (locationBody 1 10) "")) signedUp).

Definition userNamed (name : string) : AuthUser :=
  mkAuthUser name (JObj [("id", JStr name)]).

(** ann has sent a message to the recipient id bobby. *)
Definition annWroteBobby : Store :=
  newStore
    (serve (sendMessage (world t0) (bearer "ann" (sendBody "bobby" "secret") "")) ∅).

(** cat has sent a message whose recipient id is the text ann:bob. *)
Definition catWrote : Store :=
  newStore
    (serve (sendMessage (world t0)
              (bearer "cat" (sendBody "ann:bob" "hello from cat") "")) ∅).

End Scenario.

(** ** Further properties of stores used in the statements *)

Section StorePredicates.
Context {R : JsRuntime}.

(** Every value under a [user:] key is neither null nor undefined. *)
Definition profilesDefined (s : Store) : Prop :=
  forall key v, s !! key = Some v -> String.prefix "user:" key = true ->
                isNullish v = false.

(** The stores that requests build from the empty store, whatever the
    provider, the clock and the request are. *)
Inductive built : Store -> Prop :=
| built_empty : built ∅
| built_served (ep : Endpoint) (env : Env) (req : Request) (s : Store) :
    built s -> built (newStore (serve (handler ep env req) s)).

(** The profile that signup writes. *)
Definition profileFields (user : AuthUser) (email name avatar : JValue) (t : Z)
  : list (string * JValue) :=
  [("id", JStr (uid user)); ("email", email); ("name", name); ("avatar", avatar);
   ("latitude", JNull); ("longitude", JNull); ("lastSeen", JStr (toISOString t))].

(** The keys an endpoint may write: signup and update-location write
    profiles, send-message writes messages, the others write nothing. *)
Definition mayWrite (ep : Endpoint) (key : string) : Prop :=
  match ep with
  | Signup | UpdateLocation => String.prefix "user:" key = true
  | SendMessage => String.prefix "message:" key = true
  | NearbyUsers | GetMessages => False
  end.

(** The line an endpoint logs starts with the endpoint's label. *)
Definition logLabel (ep : Endpoint) : string :=
  match ep with
  | Signup => "Sign up error: "
  | UpdateLocation => "Update location "
  | NearbyUsers => "Get nearby users "
  | SendMessage => "Send message "
  | GetMessages => "Get messages "
  end.

(** Whether a text holds a space. *)
Fixpoint hasSpace (s : string) : bool :=
  match s with
  | EmptyString => false
  | String ch rest => Ascii.eqb ch " "%char || hasSpace rest
  end.

(** Whether a text holds a colon. *)
Fixpoint hasColon (s : string) : bool :=
  match s with
  | EmptyString => false
  | String ch rest => Ascii.eqb ch ":"%char || hasColon rest
  end.

End StorePredicates.

(** ** The application around the handlers *)

Section Application.
Context {R : JsRuntime}.

(** [JSON.stringify], which [c.json] applies to the body, given by the
    JSON value that its text denotes: NaN and the infinite numbers are
    written null, minus zero is written 0, undefined is written null in an
    array, and a property whose value is undefined is left out.  [None]:
    undefined has no text. *)
Fixpoint stringify (v : JValue) : option JValue :=
  match v with
  | JUndefined => None
  | JNull => Some JNull
  | JBool b => Some (JBool b)
  | JNum x =>
      Some (if PrimFloat.is_finite x
            then (if PrimFloat.is_zero x then JNum 0 else JNum x)
            else JNull)
  | JStr s => Some (JStr s)
  | JArr items =>
      Some (JArr ((fix elements (l : list JValue) : list JValue :=
                     match l with
                     | [] => []
                     | x :: rest => default JNull (stringify x) :: elements rest
                     end) items))
  | JObj fields =>
      Some (JObj ((fix properties (l : list (string * JValue))
                     : list (string * JValue) :=
                     match l with
                     | [] => []
                     | (k, x) :: rest =>
                         match stringify x with
                         | Some y => (k, y) :: properties rest
                         | None => properties rest
                         end
                     end) fields))
  end.

(** A value as the receiver of the text reads it; a value that was left
    out reads undefined. *)
Definition received (v : JValue) : JValue := default JUndefined (stringify v).

(** The response as it is sent: its status, and its body as the receiver
    reads it. *)
Definition sent (r : Response) : Response :=
  mkResponse (status r) (received (body r)).

(** What the logger middleware prints besides its arrows is decided by the
    request line and by the library: the method and the path of the
    request, and the way a status and a duration in milliseconds are
    written. *)
Record LoggerText : Type := mkLoggerText {
  requestText : string;
  responseText : Z -> Z -> string
}.

(** The line of the logger for a request that arrives. *)
Definition incomingLine (text : LoggerText) : string :=
  "<-- " ++ requestText text.

(** The line of the logger for the response, with its status and the
    milliseconds that have passed. *)
Definition outgoingLine (text : LoggerText) (code elapsed : Z) : string :=
  "--> " ++ requestText text ++ " " ++ responseText text code elapsed.

(** [logger(console.log)], which [app.use('*', ...)] installs on every
    route: it prints the request, notes the time, awaits the handler, and
    prints the status of the response with the time that has passed. *)
Definition logger (env : Env) (text : LoggerText) (next : M Response) : M Response :=
  consoleLog (incomingLine text) ;;;
  start <- now env ;;
  r <- next ;;
  finish <- now env ;;
  consoleLog (outgoingLine text (status r) (finish - start)) ;;;
  ret r.

(** The world as a handler meets it under the logger, which has read the
    clock once before the handler starts. *)
Definition afterLogger (env : Env) : Env :=
  mkEnv (authCreateUser env) (authGetUser env)
        (fun n => clock env (S n)) (kvFault env).

(** The framework's answer to a throw that escapes a handler, which the
    middleware around the handler sees as a response. *)
Definition onError (next : M Response) : M Response :=
  tryCatch next (fun _ => ret (mkResponse 500 (JStr "Internal Server Error"))).

(** [app.fetch] for a request that is routed to an endpoint: the handler
    under the logger, and the response as it is sent.  (The CORS
    middleware adds headers only, which a [Response] here does not
    carry.) *)
Definition fetch (text : LoggerText) (ep : Endpoint) (env : Env) (req : Request)
           (s : Store) : Served :=
  let served := serve (logger env text (onError (handler ep env req))) s in
  mkServed (newStore served) (logged served) (sent (response served)).

End Application.

(** A logger text for the examples: the status and the milliseconds in
    decimal. *)
Definition plainText (method path : string) : LoggerText :=
  mkLoggerText (method ++ " " ++ path)
    (fun code elapsed => pretty code ++ " " ++ pretty elapsed ++ "ms").

(** ** Concrete requests to the application, for the examples *)

Module Requests.
Import Sample Scenario.

Definition locationRoute : LoggerText :=
  plainText "POST" "/make-server-648c7146/update-location".

Definition nearbyRoute : LoggerText :=
  plainText "GET" "/make-server-648c7146/nearby-users".

Definition messagesRoute (recipient : string) : LoggerText :=
  plainText "GET" ("/make-server-648c7146/get-messages/" ++ recipient).

(** bob has reported a position whose longitude, 1e999 in the text of the
    body, is read as infinity. *)
Definition bobAtInfinity : Store :=
  newStore
    (fetch locationRoute UpdateLocation (world (t0 + 1000))
       (bearer "bob" (locationBody 1 infinity) "") signedUp).

End Requests.

(** * Properties *)

(** ** Property lists *)

Section Fields.

Lemma lookupField_assign_eq name v fs :
  lookupField name (assignField name v fs) = Some v.
Proof.
  induction fs as [|[k w] fs IH]; simpl.
  - by rewrite String.eqb_refl.
  - destruct (String.eqb k name) eqn:E; simpl; rewrite E; auto.
Qed.

Lemma lookupField_assign_ne name other v fs :
  name <> other ->
  lookupField name (assignField other v fs) = lookupField name fs.
Proof.
  intros Hne. induction fs as [|[k w] fs IH]; simpl.
  - destruct (String.eqb other name) eqn:E; [|done].
    apply String.eqb_eq in E. congruence.
  - destruct (String.eqb k other) eqn:E; simpl.
    + apply String.eqb_eq in E. subst k.
      destruct (String.eqb other name) eqn:E'; [|done].
      apply String.eqb_eq in E'. congruence.
    + by rewrite IH.
Qed.

Lemma assignField_same name v fs :
  lookupField name fs = Some v -> assignField name v fs = fs.
Proof.
  induction fs as [|[k w] fs IH]; simpl; [done|].
  destruct (String.eqb k name) eqn:E.
  - by intros [= ->].
  - intros H. by rewrite IH.
Qed.

Lemma assignField_twice name v w fs :
  assignField name w (assignField name v fs) = assignField name w fs.
Proof.
  induction fs as [|[k u] fs IH]; simpl.
  - by rewrite String.eqb_refl.
  - destruct (String.eqb k name) eqn:E; simpl; rewrite E; [done|].
    by rewrite IH.
Qed.

End Fields.

(** ** Keys and prefixes *)

Section Prefixes.

Lemma append_cons (ch : ascii) (a b : string) :
  String ch a ++ b = String ch (a ++ b).
Proof. reflexivity. Qed.

Lemma append_empty (b : string) : "" ++ b = b.
Proof. reflexivity. Qed.

Lemma prefix_app (p rest : string) : String.prefix p (p ++ rest) = true.
Proof.
  induction p as [|ch p IH].
  - by destruct rest.
  - rewrite append_cons. simpl.
    destruct (ascii_dec ch ch); [exact IH|congruence].
Qed.

Lemma prefix_app_inner (a b rest : string) :
  String.prefix (a ++ b) (a ++ b ++ rest) = true.
Proof.
  induction a as [|ch a IH].
  - rewrite !append_empty. apply prefix_app.
  - rewrite !append_cons. simpl.
    destruct (ascii_dec ch ch); [exact IH|congruence].
Qed.

Lemma user_key_not_message (name : string) :
  String.prefix "message:" ("user:" ++ name) = false.
Proof. reflexivity. Qed.

Lemma messageKey_prefix (conversation : string) (millis : Z) :
  String.prefix ("message:" ++ conversation) (messageKey conversation millis) = true.
Proof. unfold messageKey. apply prefix_app_inner. Qed.

End Prefixes.

(** ** The store *)

Section StoreFacts.

Lemma elem_of_storeGetByPrefix (p : string) (s : Store) (v : JValue) :
  v ∈ storeGetByPrefix p s <->
  exists key, s !! key = Some v /\ String.prefix p key = true.
Proof.
  unfold storeGetByPrefix. rewrite list_elem_of_fmap. split.
  - intros [[k w] [-> Hin]]. apply list_elem_of_In, filter_In in Hin.
    destruct Hin as [Hin Hp]. apply list_elem_of_In, elem_of_map_to_list in Hin.
    by exists k.
  - intros (k & Hk & Hp). exists (k, v). split; [done|].
    apply list_elem_of_In, filter_In. split; [|done].
    by apply list_elem_of_In, elem_of_map_to_list.
Qed.

Lemma storeGetByPrefix_fmap (f : JValue -> JValue) (p : string) (s : Store) :
  storeGetByPrefix p (f <$> s) = f <$> storeGetByPrefix p s.
Proof.
  unfold storeGetByPrefix. rewrite map_to_list_fmap.
  induction (map_to_list s) as [|[k v] l IH]; [done|].
  simpl in *. destruct (String.prefix p k); simpl; by f_equal.
Qed.

End StoreFacts.

(** ** Sorting *)

Section Sorting.
Context {A : Type} (cmp : A -> A -> Outcome Z).

(** On elements that [cmp] compares without throwing and orders like [le],
    the sort returns a permutation that is ordered by [le]. *)
Variable le : A -> A -> Prop.
Variable ok : A -> Prop.
Hypothesis le_trans : forall x y z, le x y -> le y z -> le x z.
Hypothesis cmp_ok : forall x y, ok x -> ok y ->
  exists c, cmp x y = Done c /\ (c <= 0 -> le x y) /\ (0 < c -> le y x).

Lemma insertBy_sorted x l :
  ok x -> Forall ok l -> StronglySorted le l ->
  exists placed, insertBy cmp x l = Done placed
                 /\ placed ≡ₚ x :: l
                 /\ StronglySorted le placed.
Proof.
  intros Hx Hok Hs. induction Hs as [|y l Hs IH Hy]; simpl.
  - eexists. split; [done|]. split; [done|]. repeat constructor.
  - inversion Hok as [|? ? Hoky Hokl]; subst.
    destruct (cmp_ok x y Hx Hoky) as (c & -> & Hle & Hgt). simpl.
    destruct (Z.leb_spec c 0) as [Hc|Hc].
    + eexists. split; [done|]. split; [done|].
      constructor; [by constructor|].
      constructor; [by apply Hle|].
      eapply Forall_impl; [exact Hy|]. intros z Hz.
      eapply le_trans; [|exact Hz]. by apply Hle.
    + destruct (IH Hokl) as (placed & -> & Hperm & Hsorted). simpl.
      eexists. split; [done|]. split.
      * rewrite Hperm. apply perm_swap.
      * constructor; [done|]. rewrite Hperm. constructor; [by apply Hgt|done].
Qed.

Lemma sortBy_sorted l :
  Forall ok l ->
  exists sorted, sortBy cmp l = Done sorted
                 /\ sorted ≡ₚ l
                 /\ StronglySorted le sorted.
Proof.
  induction l as [|x l IH]; simpl; intros Hok.
  - exists []. split; [done|]. split; [done|]. constructor.
  - inversion Hok; subst.
    destruct IH as (sorted & -> & Hperm & Hsorted); [done|]. simpl.
    destruct (insertBy_sorted x sorted) as (placed & -> & Hperm' & Hsorted');
      [done|by rewrite Hperm|done|].
    eexists. split; [done|]. split; [|done]. by rewrite Hperm', Hperm.
Qed.

End Sorting.

(** ** Running a handler *)

Ltac run_handler :=
  unfold serve, initial,
    signup, signupTry, updateLocation, updateLocationTry,
    nearbyUsers, nearbyUsersTry, sendMessage, sendMessageTry,
    getMessages, getMessagesTry,
    tryCatch, bind, prop, assign, reqJson, liftOutcome,
    kvGet, kvSet, kvGetByPrefix, kvCall, now, json, ret, throw, consoleLog;
  simpl.

(** Case analysis on every outcome the goal still branches on, innermost
    first. *)
Ltac split_cases :=
  repeat match goal with
    | |- context [match ?x with _ => _ end] =>
        lazymatch x with
        | context [match _ with _ => _ end] => fail
        | _ => destruct x eqn:?; simpl
        end
    end.

Section Conversation.
Context {R : JsRuntime}.

(** The default sort orders two different strings the same way, whichever
    comes first in the array. *)
Lemma sortPair_strings_swap (a b : string) :
  a <> b -> sortPair (JStr a) (JStr b) = sortPair (JStr b) (JStr a).
Proof.
  intros Hne. unfold sortPair; cbn [toString]. unfold String.ltb.
  rewrite (String.compare_antisym b a).
  destruct (String.compare a b) eqn:E; cbn; try reflexivity.
  apply String.compare_eq_iff in E. contradiction.
Qed.

(** C2: the conversation id of two user ids does not depend on the order
    in which the two ids are given: conversationId(A,B) equals
    conversationId(B,A). *)
Theorem conversationId_symmetric (a b : string) :
  conversationId a (JStr b) = conversationId b (JStr a).
Proof.
  destruct (decide (a = b)) as [->|Hne]; [reflexivity|].
  unfold conversationId. by rewrite (sortPair_strings_swap a b Hne).
Qed.

End Conversation.

Section UpdateLocation.
Context {R : JsRuntime}.

Lemma readProp_defined (v : JValue) (name : string) :
  isNullish v = false -> exists x, readProp v name = Done x.
Proof. destruct v; simpl; intros; try discriminate; eauto. Qed.

(** C5: when no profile is stored under the caller's user:<id> key,
    update-location leaves the store unchanged (no profile is created)
    and still answers with success. *)
Theorem updateLocation_without_profile
    (env : Env) (req : Request) (s : Store) (user : AuthUser) (payload : JValue) :
  authGetUser env (accessToken req) = Done (UserFound user) ->
  jsonBody req = Some payload ->
  isNullish payload = false ->
  kvFault env 0%nat = None ->
  s !! ("user:" ++ uid user) = None ->
  serve (updateLocation env req) s
  = mkServed s [] (mkResponse 200 (JObj [("success", JBool true)])).
Proof.
  intros Hauth Hbody Hpayload Hkv Hnone.
  destruct (readProp_defined payload "latitude" Hpayload) as [la Hla].
  destruct (readProp_defined payload "longitude" Hpayload) as [lo Hlo].
  run_handler. rewrite Hauth, Hbody. simpl. rewrite Hla, Hlo. simpl.
  rewrite Hkv. unfold storeGet. rewrite Hnone. reflexivity.
Qed.

End UpdateLocation.

Section SignUp.
Context {R : JsRuntime}.

(** C4: for a signup body that destructures and on which the identity
    provider succeeds, signup writes a profile under user:<id> with
    latitude and longitude both null, and a following read of that
    profile yields latitude = null and longitude = null. *)
Theorem signup_profile_has_null_coordinates
    (env : Env) (req : Request) (s : Store) (user : AuthUser)
    (payload email password name avatar : JValue) :
  jsonBody req = Some payload ->
  readProp payload "email" = Done email ->
  readProp payload "password" = Done password ->
  readProp payload "name" = Done name ->
  readProp payload "avatar" = Done avatar ->
  authCreateUser env email password name avatar = Done (Created user) ->
  kvFault env 0%nat = None ->
  let served := serve (signup env req) s in
  response served
  = mkResponse 200 (JObj [("success", JBool true); ("user", userJson user)])
  /\ exists profile,
       newStore served !! ("user:" ++ uid user) = Some profile
       /\ storeGet ("user:" ++ uid user) (newStore served) = profile
       /\ readProp profile "id" = Done (JStr (uid user))
       /\ readProp profile "latitude" = Done JNull
       /\ readProp profile "longitude" = Done JNull.
Proof.
  intros Hbody He Hp Hn Ha Hcreated Hkv served. subst served.
  run_handler. rewrite Hbody. simpl. rewrite He, Hp, Hn, Ha. simpl.
  rewrite Hcreated. simpl. rewrite Hkv. simpl. split; [done|].
  eexists. unfold storeGet, storeSet. rewrite lookup_insert_eq.
  split; [reflexivity|]. simpl. done.
Qed.

End SignUp.

Section Messages.
Context {R : JsRuntime}.

Lemma prefix_app_weaken (a b key : string) :
  String.prefix (a ++ b) key = true -> String.prefix a key = true.
Proof.
  revert key. induction a as [|ch a IH]; intros key.
  - by destruct key.
  - rewrite append_cons. destruct key as [|ch' key]; simpl; [done|].
    destruct (ascii_dec ch ch'); [apply IH|done].
Qed.

Lemma datedMessage_timestamp (v : JValue) :
  datedMessage v = true ->
  exists ts t, readProp v "timestamp" = Done ts
               /\ timestampOf v = ts
               /\ dateGetTime ts = Some t.
Proof.
  destruct v; simpl; try done.
  destruct (lookupField "timestamp" fields) as [ts|]; simpl; [|done].
  intros [t Ht]%bool_decide_eq_true. by exists ts, t.
Qed.

Lemma timestampLe_trans (x y z : JValue) :
  timestampLe x y -> timestampLe y z -> timestampLe x z.
Proof.
  unfold timestampLe.
  destruct (dateGetTime (timestampOf x)), (dateGetTime (timestampOf y)),
    (dateGetTime (timestampOf z)); try done. lia.
Qed.

Lemma compareTimestamps_dated (x y : JValue) :
  datedMessage x = true -> datedMessage y = true ->
  exists c, compareTimestamps x y = Done c
            /\ (c <= 0 -> timestampLe x y) /\ (0 < c -> timestampLe y x).
Proof.
  intros (tsx & tx & Hx & Hox & Htx)%datedMessage_timestamp
         (tsy & ty & Hy & Hoy & Hty)%datedMessage_timestamp.
  unfold compareTimestamps, timestampLe, andThen.
  rewrite Hx, Hy, Hox, Hoy, Htx, Hty.
  eexists. split; [done|]. split; lia.
Qed.

(** Sorting dated messages orders them by timestamp. *)
Lemma sortBy_timestamps (l : list JValue) :
  Forall (fun v => datedMessage v = true) l ->
  exists sorted, sortBy compareTimestamps l = Done sorted
                 /\ sorted ≡ₚ l
                 /\ StronglySorted timestampLe sorted.
Proof.
  apply (sortBy_sorted compareTimestamps timestampLe
           (fun v => datedMessage v = true)).
  - apply timestampLe_trans.
  - apply compareTimestamps_dated.
Qed.

(** What a successful send-message does. *)
Lemma sendMessage_served
    (env : Env) (req : Request) (s : Store) (user : AuthUser)
    (payload recipientId text : JValue) :
  authGetUser env (accessToken req) = Done (UserFound user) ->
  jsonBody req = Some payload ->
  readProp payload "recipientId" = Done recipientId ->
  readProp payload "message" = Done text ->
  kvFault env 0%nat = None ->
  serve (sendMessage env req) s
  = mkServed
      (<[messageKey (conversationId (uid user) recipientId) (clock env 0%nat)
         := messageFrom (uid user) recipientId text (clock env 1%nat)]> s)
      []
      (mkResponse 200
         (JObj [("success", JBool true);
                ("message", messageFrom (uid user) recipientId text (clock env 1%nat))])).
Proof.
  intros Hauth Hbody Hr Hm Hkv.
  run_handler. rewrite Hauth, Hbody. simpl. rewrite Hr, Hm. simpl.
  rewrite Hkv. reflexivity.
Qed.

(** A send-message that reaches the store and finds it failing answers
    500. *)
Lemma sendMessage_storage_failure
    (env : Env) (req : Request) (s : Store) (user : AuthUser)
    (payload recipientId text : JValue) (e : Exn) :
  authGetUser env (accessToken req) = Done (UserFound user) ->
  jsonBody req = Some payload ->
  readProp payload "recipientId" = Done recipientId ->
  readProp payload "message" = Done text ->
  kvFault env 0%nat = Some e ->
  status (response (serve (sendMessage env req) s)) = 500.
Proof.
  intros Hauth Hbody Hr Hm Hkv.
  run_handler. rewrite Hauth, Hbody. simpl. rewrite Hr, Hm. simpl.
  rewrite Hkv. reflexivity.
Qed.

(** What get-messages does when the caller is resolved and the scan
    yields dated messages. *)
Lemma getMessages_served
    (env : Env) (req : Request) (s : Store) (user : AuthUser) :
  authGetUser env (accessToken req) = Done (UserFound user) ->
  kvFault env 0%nat = None ->
  Forall (fun v => datedMessage v = true)
    (storeGetByPrefix
       ("message:" ++ conversationId (uid user) (JStr (paramRecipientId req))) s) ->
  exists sorted,
    serve (getMessages env req) s
    = mkServed s [] (mkResponse 200 (JObj [("messages", JArr sorted)]))
    /\ sorted ≡ₚ storeGetByPrefix
                   ("message:" ++ conversationId (uid user)
                                    (JStr (paramRecipientId req))) s
    /\ StronglySorted timestampLe sorted.
Proof.
  intros Hauth Hkv Hdated.
  destruct (sortBy_timestamps _ Hdated) as (sorted & Hsort & Hperm & Hsorted).
  exists sorted. split; [|done].
  run_handler. rewrite Hauth. simpl. rewrite Hkv, Hsort. reflexivity.
Qed.

End Messages.

Section SendThenGet.
Context {R : JsRuntime}.

Lemma messagesDated_scan (s : Store) (conversation : string) :
  messagesDated s ->
  Forall (fun v => datedMessage v = true)
    (storeGetByPrefix ("message:" ++ conversation) s).
Proof.
  intros Hs. apply Forall_forall. intros v Hv.
  apply elem_of_storeGetByPrefix in Hv as (key & Hkey & Hp).
  apply (Hs key v Hkey). by apply prefix_app_weaken in Hp.
Qed.

Lemma messagesDated_insert_message (s : Store) (key : string) (v : JValue) :
  messagesDated s -> datedMessage v = true -> messagesDated (<[key := v]> s).
Proof.
  intros Hs Hv k w Hk Hp.
  destruct (decide (key = k)) as [->|Hne].
  - rewrite lookup_insert_eq in Hk. by injection Hk as <-.
  - rewrite lookup_insert_ne in Hk by done. by apply (Hs k).
Qed.

Lemma messagesDated_insert_other (s : Store) (key : string) (v : JValue) :
  messagesDated s -> String.prefix "message:" key = false ->
  messagesDated (<[key := v]> s).
Proof.
  intros Hs Hkey k w Hk Hp.
  destruct (decide (key = k)) as [->|Hne]; [congruence|].
  rewrite lookup_insert_ne in Hk by done. by apply (Hs k).
Qed.

Lemma messageFrom_dated (sender : string) (recipientId text : JValue) (t : Z) :
  is_Some (dateGetTime (JStr (toISOString t))) ->
  datedMessage (messageFrom sender recipientId text t) = true.
Proof. intros H. simpl. by apply bool_decide_eq_true. Qed.

(** C1: after a send-message by A with recipient B and text m has
    succeeded, get-messages called by A with recipient id B, or by B with
    recipient id A, returns a list that contains the message
    {senderId: A, recipientId: B, message: m} and is sorted ascending by
    the timestamp field. *)
Theorem sendMessage_then_getMessages
    (env : Env) (req : Request) (s : Store) (sender : AuthUser)
    (payload : JValue) (recipient : string) (text : JValue)
    (env' : Env) (req' : Request) (reader : AuthUser) :
  messagesDated s ->
  is_Some (dateGetTime (JStr (toISOString (clock env 1%nat)))) ->
  authGetUser env (accessToken req) = Done (UserFound sender) ->
  jsonBody req = Some payload ->
  readProp payload "recipientId" = Done (JStr recipient) ->
  readProp payload "message" = Done text ->
  status (response (serve (sendMessage env req) s)) = 200 ->
  authGetUser env' (accessToken req') = Done (UserFound reader) ->
  (uid reader = uid sender /\ paramRecipientId req' = recipient)
  \/ (uid reader = recipient /\ paramRecipientId req' = uid sender) ->
  kvFault env' 0%nat = None ->
  exists messages,
    response (serve (getMessages env' req') (newStore (serve (sendMessage env req) s)))
    = mkResponse 200 (JObj [("messages", JArr messages)])
    /\ messageFrom (uid sender) (JStr recipient) text (clock env 1%nat) ∈ messages
    /\ StronglySorted timestampLe messages.
Proof.
  intros Hs Hdate Hauth Hbody Hr Hm Hok Hauth' Hwho Hkv'.
  destruct (kvFault env 0%nat) as [e|] eqn:Hkv.
  { rewrite (sendMessage_storage_failure env req s sender payload
               (JStr recipient) text e) in Hok by done. done. }
  rewrite (sendMessage_served env req s sender payload (JStr recipient) text)
    by done.
  simpl.
  set (key := messageKey (conversationId (uid sender) (JStr recipient)) (clock env 0%nat)).
  set (msg := messageFrom (uid sender) (JStr recipient) text (clock env 1%nat)).
  assert (Hconv : conversationId (uid reader) (JStr (paramRecipientId req'))
                  = conversationId (uid sender) (JStr recipient)).
  { destruct Hwho as [[-> ->]|[-> ->]]; [done|].
    unfold conversationId.
    destruct (decide (recipient = uid sender)) as [->|Hne]; [done|].
    by rewrite (sortPair_strings_swap recipient (uid sender) Hne). }
  assert (Hs' : messagesDated (<[key := msg]> s)).
  { apply messagesDated_insert_message; [done|]. by apply messageFrom_dated. }
  destruct (getMessages_served env' req' (<[key := msg]> s) reader Hauth' Hkv')
    as (sorted & -> & Hperm & Hsorted).
  { apply messagesDated_scan; exact Hs'. }
  simpl. exists sorted. split; [reflexivity|]. split; [|done].
  rewrite Hperm, Hconv. apply elem_of_storeGetByPrefix.
  exists key. split; [apply lookup_insert_eq|apply messageKey_prefix].
Qed.

End SendThenGet.

Section Invariant.
Context {R : JsRuntime}.

Lemma messagesDated_empty : messagesDated ∅.
Proof. intros key v Hk. by rewrite lookup_empty in Hk. Qed.

(** Every handler keeps the values under [message:] keys dated messages,
    as long as the clock readings are dates: the stores the handlers can
    build from the empty store all satisfy [messagesDated]. *)
Lemma messagesDated_preserved (ep : Endpoint) (env : Env) (req : Request) (s : Store) :
  (forall n, is_Some (dateGetTime (JStr (toISOString (clock env n))))) ->
  messagesDated s ->
  messagesDated (newStore (serve (handler ep env req) s)).
Proof.
  intros Hclock Hs.
  destruct ep; unfold handler; run_handler; split_cases;
    unfold storeSet;
    try exact Hs;
    try (apply messagesDated_insert_other; [exact Hs|apply user_key_not_message]);
    try (apply messagesDated_insert_message; [exact Hs|apply messageFrom_dated, Hclock]).
Qed.

Lemma reachable_messagesDated (s : Store) : reachable s -> messagesDated s.
Proof.
  induction 1 as [|ep env req s _ IH Hclock].
  - apply messagesDated_empty.
  - by apply messagesDated_preserved.
Qed.

End Invariant.

Section SameMillisecond.
Context {R : JsRuntime}.

(** C8: two send-message calls in the same conversation whose
    [Date.now()] readings are the same millisecond compute the same key
    message:<conversationId>:<now-millis>, and the later write overwrites
    the earlier message: the store is as if only the later one had been
    sent. *)
Theorem sendMessage_same_millisecond_overwrites
    (env1 env2 : Env) (req1 req2 : Request) (s : Store)
    (user1 user2 : AuthUser) (payload1 payload2 : JValue)
    (recipient1 recipient2 text1 text2 : JValue) :
  authGetUser env1 (accessToken req1) = Done (UserFound user1) ->
  jsonBody req1 = Some payload1 ->
  readProp payload1 "recipientId" = Done recipient1 ->
  readProp payload1 "message" = Done text1 ->
  kvFault env1 0%nat = None ->
  authGetUser env2 (accessToken req2) = Done (UserFound user2) ->
  jsonBody req2 = Some payload2 ->
  readProp payload2 "recipientId" = Done recipient2 ->
  readProp payload2 "message" = Done text2 ->
  kvFault env2 0%nat = None ->
  conversationId (uid user1) recipient1 = conversationId (uid user2) recipient2 ->
  clock env1 0%nat = clock env2 0%nat ->
  let key1 := messageKey (conversationId (uid user1) recipient1) (clock env1 0%nat) in
  let key2 := messageKey (conversationId (uid user2) recipient2) (clock env2 0%nat) in
  let first := newStore (serve (sendMessage env1 req1) s) in
  let second := newStore (serve (sendMessage env2 req2) first) in
  key1 = key2
  /\ first !! key1 = Some (messageFrom (uid user1) recipient1 text1 (clock env1 1%nat))
  /\ second !! key1 = Some (messageFrom (uid user2) recipient2 text2 (clock env2 1%nat))
  /\ second = newStore (serve (sendMessage env2 req2) s).
Proof.
  intros Ha1 Hb1 Hr1 Hm1 Hk1 Ha2 Hb2 Hr2 Hm2 Hk2 Hconv Hclock key1 key2 first second.
  subst key1 key2 first second.
  rewrite (sendMessage_served env1 req1 s user1 payload1 recipient1 text1) by done.
  rewrite !(sendMessage_served env2 req2 _ user2 payload2 recipient2 text2) by done.
  simpl. rewrite <- Hconv, <- Hclock.
  split; [done|]. split; [apply lookup_insert_eq|].
  split; [apply lookup_insert_eq|apply insert_insert_eq].
Qed.

End SameMillisecond.

Section Relocation.
Context {R : JsRuntime}.

(** The profile after the three assignments of update-location. *)
Lemma updateLocation_served
    (env : Env) (req : Request) (s : Store) (user : AuthUser)
    (payload latitude longitude : JValue) (fs : list (string * JValue)) :
  authGetUser env (accessToken req) = Done (UserFound user) ->
  jsonBody req = Some payload ->
  readProp payload "latitude" = Done latitude ->
  readProp payload "longitude" = Done longitude ->
  kvFault env 0%nat = None ->
  kvFault env 1%nat = None ->
  s !! ("user:" ++ uid user) = Some (JObj fs) ->
  serve (updateLocation env req) s
  = mkServed
      (<["user:" ++ uid user :=
           JObj (assignField "lastSeen" (JStr (toISOString (clock env 0%nat)))
                   (assignField "longitude" longitude
                      (assignField "latitude" latitude fs)))]> s)
      []
      (mkResponse 200 (JObj [("success", JBool true)])).
Proof.
  intros Hauth Hbody Hla Hlo Hk0 Hk1 Hprofile.
  run_handler. rewrite Hauth, Hbody. simpl. rewrite Hla, Hlo. simpl.
  rewrite Hk0. unfold storeGet. rewrite Hprofile. simpl. rewrite Hk1.
  reflexivity.
Qed.

(** Update-location either leaves the store as it is, or rewrites the
    caller's stored profile object. *)
Lemma updateLocation_cases (env : Env) (req : Request) (s : Store) :
  newStore (serve (updateLocation env req) s) = s
  \/ exists user payload latitude longitude fs,
       authGetUser env (accessToken req) = Done (UserFound user)
       /\ jsonBody req = Some payload
       /\ readProp payload "latitude" = Done latitude
       /\ readProp payload "longitude" = Done longitude
       /\ kvFault env 0%nat = None
       /\ kvFault env 1%nat = None
       /\ s !! ("user:" ++ uid user) = Some (JObj fs).
Proof.
  run_handler. split_cases; try (by left).
  - left. unfold storeSet. apply insert_id.
    unfold storeGet in *. by destruct (s !! ("user:" ++ uid user)); simplify_eq/=.
  - right. unfold storeGet in *.
    destruct (s !! ("user:" ++ uid user)) eqn:Hs; simplify_eq/=.
    by eexists _, _, _, _, _.
Qed.

(** With a stored profile, a first call writes the profile with the
    reported position and its own time, and a second call with the same
    arguments writes that profile again with nothing but the time
    replaced. *)
Lemma updateLocation_again
    (env1 env2 : Env) (req : Request) (s : Store) (user : AuthUser)
    (payload latitude longitude : JValue) (fs : list (string * JValue)) :
  authGetUser env1 (accessToken req) = Done (UserFound user) ->
  authGetUser env2 (accessToken req) = Done (UserFound user) ->
  jsonBody req = Some payload ->
  readProp payload "latitude" = Done latitude ->
  readProp payload "longitude" = Done longitude ->
  kvFault env1 0%nat = None ->
  kvFault env1 1%nat = None ->
  kvFault env2 0%nat = None ->
  kvFault env2 1%nat = None ->
  s !! ("user:" ++ uid user) = Some (JObj fs) ->
  let located := assignField "longitude" longitude (assignField "latitude" latitude fs) in
  let first := assignField "lastSeen" (JStr (toISOString (clock env1 0%nat))) located in
  let once := <["user:" ++ uid user := JObj first]> s in
  newStore (serve (updateLocation env1 req) s) = once
  /\ newStore (serve (updateLocation env2 req) s)
     = <["user:" ++ uid user :=
           JObj (assignField "lastSeen" (JStr (toISOString (clock env2 0%nat))) first)]> s
  /\ newStore (serve (updateLocation env2 req) once)
     = <["user:" ++ uid user :=
           JObj (assignField "lastSeen" (JStr (toISOString (clock env2 0%nat))) first)]> once.
Proof.
  intros Ha1 Ha2 Hb Hla Hlo Hf0 Hf1 Hg0 Hg1 Hp located first once.
  assert (Hagain : assignField "longitude" longitude
                     (assignField "latitude" latitude first) = first).
  { rewrite (assignField_same "latitude" latitude).
    - apply assignField_same. subst first located.
      rewrite lookupField_assign_ne by done. apply lookupField_assign_eq.
    - subst first located.
      rewrite !lookupField_assign_ne by done. apply lookupField_assign_eq. }
  split; [|split].
  - by rewrite (updateLocation_served env1 req s user payload latitude longitude fs).
  - rewrite (updateLocation_served env2 req s user payload latitude longitude fs)
      by done.
    cbn [newStore]. subst first. by rewrite assignField_twice.
  - rewrite (updateLocation_served env2 req once user payload latitude longitude first)
      by (done || apply lookup_insert_eq).
    cbn [newStore]. by rewrite Hagain.
Qed.

(** C9 (amended): update-location applied twice with the same arguments
    yields the store that the second call alone would yield; the store
    after one call and after two calls can differ only in the lastSeen
    that the later call stamps on the caller's profile (every other key,
    and every other property of the profile, is as after one call), and
    they are equal when both calls read the same clock value. *)
Theorem updateLocation_twice_is_latest
    (env1 env2 : Env) (req : Request) (s : Store) :
  authGetUser env2 (accessToken req) = authGetUser env1 (accessToken req) ->
  kvFault env2 0%nat = kvFault env1 0%nat ->
  kvFault env2 1%nat = kvFault env1 1%nat ->
  let once := newStore (serve (updateLocation env1 req) s) in
  let twice := newStore (serve (updateLocation env2 req) once) in
  twice = newStore (serve (updateLocation env2 req) s)
  /\ (twice = once
      \/ exists user fs,
           authGetUser env1 (accessToken req) = Done (UserFound user)
           /\ once !! ("user:" ++ uid user) = Some (JObj fs)
           /\ twice = <["user:" ++ uid user :=
                          JObj (assignField "lastSeen"
                                  (JStr (toISOString (clock env2 0%nat))) fs)]> once)
  /\ (forall key name,
        name <> "lastSeen" ->
        readProp (storeGet key twice) name = readProp (storeGet key once) name)
  /\ (clock env2 0%nat = clock env1 0%nat -> twice = once).
Proof.
  intros Hauth Hk0 Hk1 once twice.
  assert (Hparts :
    twice = newStore (serve (updateLocation env2 req) s)
    /\ (twice = once
        \/ exists user fs,
             authGetUser env1 (accessToken req) = Done (UserFound user)
             /\ once !! ("user:" ++ uid user) = Some (JObj fs)
             /\ twice = <["user:" ++ uid user :=
                            JObj (assignField "lastSeen"
                                    (JStr (toISOString (clock env2 0%nat))) fs)]> once)
    /\ (clock env2 0%nat = clock env1 0%nat -> twice = once)).
  { assert (Hwritten :
      forall user payload la lo fs,
        authGetUser env1 (accessToken req) = Done (UserFound user) ->
        jsonBody req = Some payload ->
        readProp payload "latitude" = Done la ->
        readProp payload "longitude" = Done lo ->
        kvFault env1 0%nat = None ->
        kvFault env1 1%nat = None ->
        s !! ("user:" ++ uid user) = Some (JObj fs) ->
        twice = newStore (serve (updateLocation env2 req) s)
        /\ (twice = once
            \/ exists user fs,
                 authGetUser env1 (accessToken req) = Done (UserFound user)
                 /\ once !! ("user:" ++ uid user) = Some (JObj fs)
                 /\ twice = <["user:" ++ uid user :=
                                JObj (assignField "lastSeen"
                                        (JStr (toISOString (clock env2 0%nat))) fs)]> once)
        /\ (clock env2 0%nat = clock env1 0%nat -> twice = once)).
    { intros user payload la lo fs Ha Hb Hla Hlo Hf0 Hf1 Hp.
      destruct (updateLocation_again env1 env2 req s user payload la lo fs)
        as (Honce & Hsecond & Htwice); try (done || congruence).
      subst once twice. rewrite Honce, Htwice, Hsecond.
      split; [apply insert_insert_eq|]. split.
      - right. exists user. eexists. split; [done|].
        split; [apply lookup_insert_eq|done].
      - intros ->. rewrite assignField_twice. apply insert_insert_eq. }
    destruct (updateLocation_cases env1 req s)
      as [Hsame|(user & payload & la & lo & fs & Ha & Hb & Hla & Hlo & Hf0 & Hf1 & Hp)];
      [|by apply (Hwritten user payload la lo fs)].
    destruct (updateLocation_cases env2 req s)
      as [Hsame'|(user & payload & la & lo & fs & Ha & Hb & Hla & Hlo & Hf0 & Hf1 & Hp)].
    - subst once twice. rewrite Hsame, Hsame'. split; [done|]. split; [by left|done].
    - apply (Hwritten user payload la lo fs); done || congruence. }
  destruct Hparts as (Hlatest & Hdiff & Hequal).
  split; [done|]. split; [done|]. split; [|done].
  intros key name Hname.
  destruct Hdiff as [->|(user & fs & _ & Hfs & ->)]; [done|].
  unfold storeGet. destruct (decide ("user:" ++ uid user = key)) as [<-|Hne].
  - rewrite lookup_insert_eq, Hfs. simpl. by rewrite lookupField_assign_ne.
  - by rewrite lookup_insert_ne.
Qed.

End Relocation.

Section NearbyUsers.
Context {R : JsRuntime}.

Lemma publicFields_names (u v : JValue) :
  publicFields u = Done v -> fieldNames v = publicNames.
Proof.
  unfold publicFields, andThen, readProp. destruct u; intros H; simplify_eq; reflexivity.
Qed.

Lemma mapOutcome_Forall {A B} (f : A -> Outcome B) (P : B -> Prop) (l : list A) (l' : list B) :
  (forall x y, f x = Done y -> P y) ->
  mapOutcome f l = Done l' -> Forall P l'.
Proof.
  intros Hf. revert l'. induction l as [|x l IH]; simpl; intros l' Hl.
  - by simplify_eq.
  - destruct (f x) as [y|] eqn:Hx; [|done].
    destruct (mapOutcome f l) as [ys|]; [|done].
    simplify_eq. constructor; eauto.
Qed.


Lemma lookupField_withoutEmail (name : string) (fs : list (string * JValue)) :
  name <> "email" ->
  lookupField name
    ((fun kv : string * JValue =>
        if (kv.1 =? "email")%string then (kv.1, JNull) else kv) <$> fs)
  = lookupField name fs.
Proof.
  intros Hne. induction fs as [|[k v] fs IH]; [done|].
  cbn [fmap list_fmap lookupField fst]. rewrite IH.
  destruct (String.eqb_spec k "email") as [->|Hk]; cbn [lookupField]; [|done].
  destruct (String.eqb_spec "email" name); [congruence|done].
Qed.

Lemma readProp_withoutEmail (u : JValue) (name : string) :
  name <> "email" -> readProp (withoutEmail u) name = readProp u name.
Proof.
  intros Hne. destruct u; simpl; try done.
  by rewrite lookupField_withoutEmail.
Qed.

Lemma isNearby_withoutEmail (userId : string) (u : JValue) :
  isNearby userId (withoutEmail u) = isNearby userId u.
Proof. unfold isNearby. by rewrite !readProp_withoutEmail. Qed.

Lemma publicFields_withoutEmail (u : JValue) :
  publicFields (withoutEmail u) = publicFields u.
Proof. unfold publicFields. by rewrite !readProp_withoutEmail. Qed.

Lemma mapOutcome_withoutEmail (l : list JValue) :
  mapOutcome publicFields (withoutEmail <$> l) = mapOutcome publicFields l.
Proof.
  induction l as [|u l IH]; [done|].
  cbn [fmap list_fmap mapOutcome]. rewrite publicFields_withoutEmail.
  change (list_fmap JValue JValue withoutEmail l) with (withoutEmail <$> l).
  by rewrite IH.
Qed.

(** What nearby-users computes from the scanned profiles. *)
Lemma located_withoutEmail (userId : string) (l : list JValue) :
  match filterOutcome (isNearby userId) (withoutEmail <$> l) with
  | Done kept => mapOutcome publicFields kept
  | Thrown e => Thrown e
  end
  = match filterOutcome (isNearby userId) l with
    | Done kept => mapOutcome publicFields kept
    | Thrown e => Thrown e
    end.
Proof.
  assert (Hfilter :
    filterOutcome (isNearby userId) (withoutEmail <$> l)
    = match filterOutcome (isNearby userId) l with
      | Done kept => Done (withoutEmail <$> kept)
      | Thrown e => Thrown e
      end).
  { induction l as [|u l IH]; [done|].
    cbn [fmap list_fmap filterOutcome]. rewrite isNearby_withoutEmail.
    destruct (isNearby userId u) as [keep|]; [|done].
    change (list_fmap JValue JValue withoutEmail l) with (withoutEmail <$> l).
    rewrite IH. destruct (filterOutcome (isNearby userId) l); [|done].
    by destruct keep. }
  rewrite Hfilter. destruct (filterOutcome (isNearby userId) l) as [kept|]; [|done].
  apply mapOutcome_withoutEmail.
Qed.

Lemma nearbyUsers_withoutEmail (env : Env) (req : Request) (s : Store) :
  response (serve (nearbyUsers env req) (withoutEmail <$> s))
  = response (serve (nearbyUsers env req) s)
  /\ logged (serve (nearbyUsers env req) (withoutEmail <$> s))
     = logged (serve (nearbyUsers env req) s).
Proof.
  run_handler.
  destruct (authGetUser env (accessToken req)) as [[user|m]|e]; simpl; [|done..].
  destruct (kvFault env 0%nat); simpl; [done|].
  rewrite storeGetByPrefix_fmap.
  pose proof (located_withoutEmail (uid user) (storeGetByPrefix "user:" s)) as H.
  destruct (filterOutcome (isNearby (uid user)) (withoutEmail <$> storeGetByPrefix "user:" s))
    as [k1|e1];
    destruct (filterOutcome (isNearby (uid user)) (storeGetByPrefix "user:" s)) as [k2|e2];
    simpl in *.
  - rewrite H. by destruct (mapOutcome publicFields k2).
  - by rewrite H.
  - by rewrite <- H.
  - by simplify_eq.
Qed.

(** A nearby-users answer that lists users lists what the filter kept,
    mapped to the public fields. *)
Lemma nearbyUsers_users (env : Env) (req : Request) (s : Store) (users : list JValue) :
  body (response (serve (nearbyUsers env req) s)) = JObj [("users", JArr users)] ->
  exists user kept,
    authGetUser env (accessToken req) = Done (UserFound user)
    /\ filterOutcome (isNearby (uid user)) (storeGetByPrefix "user:" s) = Done kept
    /\ mapOutcome publicFields kept = Done users.
Proof.
  run_handler. split_cases; intros H; simplify_eq/=.
  by eexists _, _.
Qed.

(** C10: the user objects that nearby-users returns have exactly the
    fields id, name, avatar, latitude, longitude and lastSeen, so the
    stored email is never among them; and the answer is the same on any
    store that differs from this one only in the email fields of the
    stored profiles. *)
Theorem nearbyUsers_never_discloses_email
    (env : Env) (req : Request) (s : Store) (users : list JValue) :
  body (response (serve (nearbyUsers env req) s)) = JObj [("users", JArr users)] ->
  Forall (fun u => fieldNames u = publicNames /\ "email" ∉ fieldNames u) users
  /\ forall s' : Store,
       withoutEmail <$> s' = withoutEmail <$> s ->
       response (serve (nearbyUsers env req) s')
       = response (serve (nearbyUsers env req) s).
Proof.
  intros Husers. split.
  - apply nearbyUsers_users in Husers as (user & kept & _ & _ & Hmap).
    eapply mapOutcome_Forall; [|exact Hmap].
    intros u v Hv. apply publicFields_names in Hv. rewrite Hv. split; [done|].
    unfold publicNames. intros Hin.
    repeat (apply elem_of_cons in Hin as [?|Hin]; [done|]).
    by apply elem_of_nil in Hin.
  - intros s' Hs'.
    destruct (nearbyUsers_withoutEmail env req s') as [<- _].
    destruct (nearbyUsers_withoutEmail env req s) as [<- _].
    by rewrite Hs'.
Qed.

End NearbyUsers.

Section Taxonomy.
Context {R : JsRuntime}.




(** The failures that are thrown: a body that is not JSON, a body that
    cannot be destructured, a rejected provider call and a failing store
    all end in the [catch] of the handler. *)
Lemma unparsable_body_is_500 (ep : Endpoint) (env : Env) (req : Request) (s : Store)
      (user : AuthUser) :
  jsonBody req = None ->
  authGetUser env (accessToken req) = Done (UserFound user) ->
  ep = Signup \/ ep = UpdateLocation \/ ep = SendMessage ->
  status (response (serve (handler ep env req) s)) = 500.
Proof.
  intros Hbody Hauth [->|[->| ->]]; unfold handler; run_handler;
    rewrite ?Hauth, Hbody; reflexivity.
Qed.

Lemma failing_scan_is_500 (ep : Endpoint) (env : Env) (req : Request) (s : Store)
      (user : AuthUser) (e : Exn) :
  authGetUser env (accessToken req) = Done (UserFound user) ->
  kvFault env 0%nat = Some e ->
  ep = NearbyUsers \/ ep = GetMessages ->
  response (serve (handler ep env req) s) = mkResponse 500 (errorBody (exnString e)).
Proof.
  intros Hauth Hkv [->| ->]; unfold handler; run_handler;
    rewrite Hauth; simpl; rewrite Hkv; reflexivity.
Qed.

Lemma rejected_provider_is_500 (ep : Endpoint) (env : Env) (req : Request) (s : Store)
      (e : Exn) :
  authenticated ep = true ->
  authGetUser env (accessToken req) = Thrown e ->
  response (serve (handler ep env req) s) = mkResponse 500 (errorBody (exnString e)).
Proof.
  intros Hep Hauth.
  destruct ep; try discriminate; unfold handler; run_handler;
    rewrite Hauth; reflexivity.
Qed.

End Taxonomy.

Section NearbyUsersFilter.
Context {R : JsRuntime}.

Lemma mapOutcome_elem_of {A B} (f : A -> Outcome B) (l : list A) (l' : list B) (y : B) :
  mapOutcome f l = Done l' -> y ∈ l' -> exists x, x ∈ l /\ f x = Done y.
Proof.
  revert l'. induction l as [|x l IH]; simpl; intros l' Hl Hy.
  - simplify_eq. by apply elem_of_nil in Hy.
  - destruct (f x) as [z|] eqn:Hx; [|done].
    destruct (mapOutcome f l) as [ys|]; [|done]. simplify_eq.
    apply elem_of_cons in Hy as [->|Hy].
    + exists x. split; [apply elem_of_cons; by left|done].
    + destruct (IH ys eq_refl Hy) as (x' & Hin & Hx').
      exists x'. split; [apply elem_of_cons; by right|done].
Qed.


Lemma filterOutcome_elem_of {A} (f : A -> Outcome bool) (l kept : list A) (x : A) :
  filterOutcome f l = Done kept -> x ∈ kept -> x ∈ l /\ f x = Done true.
Proof.
  revert kept. induction l as [|y l IH]; simpl; intros kept Hl Hx.
  - simplify_eq. by apply elem_of_nil in Hx.
  - destruct (f y) as [keep|] eqn:Hy; [|done].
    destruct (filterOutcome f l) as [ys|]; [|done]. simplify_eq.
    destruct keep.
    + apply elem_of_cons in Hx as [->|Hx].
      * split; [apply elem_of_cons; by left|done].
      * destruct (IH ys eq_refl Hx). split; [apply elem_of_cons; by right|done].
    + destruct (IH ys eq_refl Hx). split; [apply elem_of_cons; by right|done].
Qed.

(** What the filter callback accepts. *)
Lemma isNearby_true (userId : string) (u : JValue) :
  isNearby userId u = Done true <->
  exists i latitude longitude,
    readProp u "id" = Done i
    /\ readProp u "latitude" = Done latitude
    /\ readProp u "longitude" = Done longitude
    /\ strictEqString i userId = false
    /\ truthy latitude = true
    /\ truthy longitude = true.
Proof.
  unfold isNearby, andThen. split.
  - destruct (readProp u "id") as [i|]; [|done].
    destruct (strictEqString i userId) eqn:Hi; simpl; [done|].
    destruct (readProp u "latitude") as [la|]; [|done].
    destruct (truthy la) eqn:Hla; [|done].
    destruct (readProp u "longitude") as [lo|]; [|done].
    intros [= Hlo]. by eexists _, _, _.
  - intros (i & la & lo & -> & -> & -> & Hi & Hla & Hlo).
    by rewrite Hi, Hla, Hlo.
Qed.

Lemma publicFields_reads (u v : JValue) :
  publicFields u = Done v ->
  readProp v "id" = readProp u "id"
  /\ readProp v "latitude" = readProp u "latitude"
  /\ readProp v "longitude" = readProp u "longitude".
Proof.
  unfold publicFields, andThen, readProp. destruct u; intros H; simplify_eq; done.
Qed.

(** In the list that the handler of nearby-users hands to [c.json], no
    user has the caller's id, a null latitude or a null longitude. *)
Lemma nearbyUsers_excludes_caller_and_null
    (env : Env) (req : Request) (s : Store) (users : list JValue) (caller : AuthUser) :
  authGetUser env (accessToken req) = Done (UserFound caller) ->
  body (response (serve (nearbyUsers env req) s)) = JObj [("users", JArr users)] ->
  Forall (fun u => readProp u "id" <> Done (JStr (uid caller))
                   /\ readProp u "latitude" <> Done JNull
                   /\ readProp u "longitude" <> Done JNull) users.
Proof.
  intros Hauth Husers.
  apply nearbyUsers_users in Husers as (user & kept & Hauth' & Hfilter & Hmap).
  rewrite Hauth in Hauth'. simplify_eq.
  apply Forall_forall. intros u Hu.
  destruct (mapOutcome_elem_of _ _ _ _ Hmap Hu) as (p & Hp & Hpu).
  destruct (filterOutcome_elem_of _ _ _ _ Hfilter Hp) as [_ Hnear].
  apply isNearby_true in Hnear as (i & la & lo & Hi & Hla & Hlo & Hne & Hta & Hto).
  destruct (publicFields_reads p u Hpu) as (-> & -> & ->).
  rewrite Hi, Hla, Hlo. split; [|split].
  - intros [= ->]. simpl in Hne. by rewrite String.eqb_refl in Hne.
  - intros [= ->]. done.
  - intros [= ->]. done.
Qed.

(** In that list no user ever has the latitude 0 or the longitude 0,
    whatever is stored. *)
Lemma nearbyUsers_never_returns_zero_coordinate
    (env : Env) (req : Request) (s : Store) (users : list JValue) :
  body (response (serve (nearbyUsers env req) s)) = JObj [("users", JArr users)] ->
  Forall (fun u => readProp u "latitude" <> Done (JNum 0)
                   /\ readProp u "longitude" <> Done (JNum 0)) users.
Proof.
  intros Husers.
  apply nearbyUsers_users in Husers as (user & kept & _ & Hfilter & Hmap).
  apply Forall_forall. intros u Hu.
  destruct (mapOutcome_elem_of _ _ _ _ Hmap Hu) as (p & Hp & Hpu).
  destruct (filterOutcome_elem_of _ _ _ _ Hfilter Hp) as [_ Hnear].
  apply isNearby_true in Hnear as (i & la & lo & Hi & Hla & Hlo & _ & Hta & Hto).
  destruct (publicFields_reads p u Hpu) as (_ & -> & ->).
  rewrite Hla, Hlo. split; intros [= ->]; vm_compute in Hta, Hto; discriminate.
Qed.


End NearbyUsersFilter.

Section Isolation.
Context {R : JsRuntime}.

Lemma string_length_app (a b : string) :
  String.length (a ++ b) = (String.length a + String.length b)%nat.
Proof.
  induction a as [|ch a IH]; [done|].
  rewrite append_cons. simpl. by rewrite IH.
Qed.

Lemma prefix_app_cancel (p a b : string) :
  String.prefix (p ++ a) (p ++ b) = String.prefix a b.
Proof.
  induction p as [|ch p IH]; [done|].
  rewrite !append_cons. simpl. destruct (ascii_dec ch ch); [exact IH|congruence].
Qed.

Lemma prefix_same_length (a b rest : string) :
  String.length a = String.length b ->
  String.prefix a (b ++ rest) = true -> a = b.
Proof.
  revert b. induction a as [|ch a IH]; intros [|ch' b] Hlen; try done.
  rewrite append_cons. simpl.
  destruct (ascii_dec ch ch') as [->|]; [|done].
  intros H. f_equal. apply IH; [|done]. by injection Hlen.
Qed.

Lemma append_inj_length (a b x y : string) :
  String.length a = String.length b -> a ++ x = b ++ y -> a = b /\ x = y.
Proof.
  revert b. induction a as [|ch a IH]; intros [|ch' b] Hlen; try done.
  rewrite !append_cons. intros [= -> H].
  destruct (IH b) as [-> ->]; [by injection Hlen|done|done].
Qed.

Lemma conversationId_strings (a b : string) :
  conversationId a (JStr b)
  = if String.ltb b a then b ++ ":" ++ a else a ++ ":" ++ b.
Proof.
  unfold conversationId, sortPair; cbn [toString].
  by destruct (String.ltb b a).
Qed.

Lemma conversationId_length (a b : string) :
  String.length (conversationId a (JStr b))
  = (String.length a + String.length b + 1)%nat.
Proof.
  rewrite conversationId_strings.
  destruct (String.ltb b a); rewrite !string_length_app; simpl; lia.
Qed.

(** Between ids of one length, as the identity provider issues them, the
    scan prefix of a conversation matches the keys of that conversation
    only. *)
Lemma scan_isolated_for_ids_of_one_length (a b a' b' : string) (millis : Z) :
  String.length b = String.length a ->
  String.length a' = String.length a ->
  String.length b' = String.length a ->
  String.prefix ("message:" ++ conversationId a (JStr b))
    (messageKey (conversationId a' (JStr b')) millis) = true ->
  (a = a' /\ b = b') \/ (a = b' /\ b = a').
Proof.
  intros Hb Ha' Hb' Hprefix. unfold messageKey in Hprefix.
  rewrite prefix_app_cancel in Hprefix.
  apply prefix_same_length in Hprefix;
    [|rewrite !conversationId_length; lia].
  rewrite !conversationId_strings in Hprefix.
  destruct (String.ltb b a), (String.ltb b' a');
    apply append_inj_length in Hprefix as [H1 H2]; try lia;
    apply (append_inj_length ":" ":") in H2 as [_ H2]; try done;
    subst; auto.
Qed.

End Isolation.

(** ** The dates of the concrete runtime *)

Section SampleDates.
Import Sample.

Lemma civilFromDays_inverse (days y m d : Z) :
  civilFromDays days = (y, m, d) ->
  daysFromCivil y m d = days /\ 1 <= m <= 12 /\ 1 <= d <= 31.
Proof.
  unfold civilFromDays, daysFromCivil. intros [= <- <- <-].
  set (z := days + 719468).
  set (era := z / 146097).
  set (doe := z - era * 146097).
  assert (Hdoe : 0 <= doe < 146097) by (subst doe era; Z.div_mod_to_equations; lia).
  set (yoe := (doe - doe / 1460 + doe / 36524 - doe / 146096) / 365).
  set (doy := doe - (365 * yoe + yoe / 4 - yoe / 100)).
  assert (Hyear : 0 <= yoe <= 399 /\ 0 <= doy <= 365)
    by (subst yoe doy; Z.div_mod_to_equations; lia).
  set (mp := (5 * doy + 2) / 153).
  assert (Hmp : 0 <= mp <= 11) by (subst mp; Z.div_mod_to_equations; lia).
  assert (Hd : 1 <= doy - (153 * mp + 2) / 5 + 1 <= 31)
    by (subst mp; Z.div_mod_to_equations; lia).
  set (m := if mp <? 10 then mp + 3 else mp - 9).
  assert (Hm : 1 <= m <= 12 /\ (if 2 <? m then m - 3 else m + 9) = mp).
  { subst m. destruct (Z.ltb_spec mp 10).
    - destruct (Z.ltb_spec 2 (mp + 3)); lia.
    - destruct (Z.ltb_spec 2 (mp - 9)); lia. }
  destruct Hm as [Hm ->].
  split; [|done].
  assert (Hy : (if m <=? 2 then (if m <=? 2 then yoe + era * 400 + 1 else yoe + era * 400) - 1
                else (if m <=? 2 then yoe + era * 400 + 1 else yoe + era * 400))
               = yoe + era * 400) by (destruct (m <=? 2); lia).
  rewrite Hy.
  replace ((yoe + era * 400) / 400) with era by (Z.div_mod_to_equations; lia).
  replace (yoe + era * 400 - era * 400) with yoe by lia.
  subst doy doe z. clearbody mp yoe era. lia.
Qed.

Lemma civilFromDays_year (days y m d : Z) :
  0 <= days < 2932897 -> civilFromDays days = (y, m, d) -> 1970 <= y <= 9999.
Proof.
  unfold civilFromDays. intros Hdays [= <- _ _].
  set (z := days + 719468).
  set (era := z / 146097).
  set (doe := z - era * 146097).
  assert (Hdoe : 0 <= doe < 146097) by (subst doe era; Z.div_mod_to_equations; lia).
  assert (Hera : 4 <= era <= 24) by (subst era z; Z.div_mod_to_equations; lia).
  assert (Hfirst : era = 4 -> 135080 <= doe) by (subst doe z; lia).
  assert (Hlast : era = 24 -> doe <= 146036) by (subst doe z; lia).
  clearbody doe era. clear z Hdays.
  set (yoe := (doe - doe / 1460 + doe / 36524 - doe / 146096) / 365).
  set (doy := doe - (365 * yoe + yoe / 4 - yoe / 100)).
  assert (Hyear : 0 <= yoe <= 399 /\ 0 <= doy <= 365)
    by (subst yoe doy; Z.div_mod_to_equations; lia).
  assert (Hdoy : doe = 365 * yoe + yoe / 4 - yoe / 100 + doy) by (subst doy; lia).
  clearbody doy. clearbody yoe.
  set (mp := (5 * doy + 2) / 153).
  assert (Hmp : 0 <= mp <= 11 /\ (mp < 10 <-> doy <= 305))
    by (subst mp; Z.div_mod_to_equations; lia).
  clearbody mp.
  destruct (Z.ltb_spec mp 10) as [Hlt|Hge].
  - destruct (Z.leb_spec (mp + 3) 2); [lia|].
    Z.div_mod_to_equations. lia.
  - destruct (Z.leb_spec (mp - 9) 2); [|lia].
    Z.div_mod_to_equations. lia.
Qed.

Lemma digit_value (n : Z) :
  Z.of_nat (nat_of_ascii (digit n)) - 48 = n mod 10.
Proof.
  unfold digit. rewrite nat_ascii_embedding.
  - rewrite Nat2Z.inj_add, Z2Nat.id; Z.div_mod_to_equations; lia.
  - assert (Z.to_nat (n mod 10) < 10)%nat; [|lia].
    apply Nat2Z.inj_lt. rewrite Z2Nat.id; Z.div_mod_to_equations; lia.
Qed.

Lemma digitsFrom_digit (acc n : Z) (rest : string) :
  digitsFrom acc (String (digit n) rest) = digitsFrom (10 * acc + n mod 10) rest.
Proof.
  cbn [digitsFrom]. rewrite digit_value.
  destruct (Z.leb_spec 0 (n mod 10)), (Z.leb_spec (n mod 10) 9); try done;
    Z.div_mod_to_equations; lia.
Qed.

Lemma digitsFrom_padded2 (n : Z) : 0 <= n < 100 -> digitsFrom 0 (padded 2 n) = Some n.
Proof.
  intros Hn. change (padded 2 n) with (String (digit (n / 10)) (String (digit n) "")).
  rewrite !digitsFrom_digit. cbn [digitsFrom]. f_equal.
  Z.div_mod_to_equations. lia.
Qed.

Lemma digitsFrom_padded3 (n : Z) : 0 <= n < 1000 -> digitsFrom 0 (padded 3 n) = Some n.
Proof.
  intros Hn.
  change (padded 3 n)
    with (String (digit (n / 10 / 10)) (String (digit (n / 10)) (String (digit n) ""))).
  rewrite !digitsFrom_digit. cbn [digitsFrom]. f_equal.
  Z.div_mod_to_equations. lia.
Qed.

Lemma digitsFrom_padded4 (n : Z) : 0 <= n < 10000 -> digitsFrom 0 (padded 4 n) = Some n.
Proof.
  intros Hn.
  change (padded 4 n)
    with (String (digit (n / 10 / 10 / 10))
            (String (digit (n / 10 / 10)) (String (digit (n / 10)) (String (digit n) "")))).
  rewrite !digitsFrom_digit. cbn [digitsFrom]. f_equal.
  Z.div_mod_to_equations. lia.
Qed.

(** The seven numbers of a text in the format are its fields. *)
Lemma numbers_of_isoText (y m d hh mm ss ms : Z) :
  numberAt 0 4 (isoText y m d hh mm ss ms) = digitsFrom 0 (padded 4 y)
  /\ numberAt 5 2 (isoText y m d hh mm ss ms) = digitsFrom 0 (padded 2 m)
  /\ numberAt 8 2 (isoText y m d hh mm ss ms) = digitsFrom 0 (padded 2 d)
  /\ numberAt 11 2 (isoText y m d hh mm ss ms) = digitsFrom 0 (padded 2 hh)
  /\ numberAt 14 2 (isoText y m d hh mm ss ms) = digitsFrom 0 (padded 2 mm)
  /\ numberAt 17 2 (isoText y m d hh mm ss ms) = digitsFrom 0 (padded 2 ss)
  /\ numberAt 20 3 (isoText y m d hh mm ss ms) = digitsFrom 0 (padded 3 ms).
Proof. repeat split; reflexivity. Qed.

(** The text that [isoString] writes for an instant of the years 1970 to
    9999 is read back as that instant. *)
Lemma parseIso_isoString (t : Z) :
  0 <= t < 253402300800000 -> parseIso (isoString t) = Some t.
Proof.
  intros Ht.
  assert (Htext : exists y m d,
    civilFromDays (t / 86400000) = (y, m, d)
    /\ isoString t
       = isoText y m d (t mod 86400000 / 3600000) (t mod 86400000 / 60000 mod 60)
           (t mod 86400000 / 1000 mod 60) (t mod 86400000 mod 1000)).
  { unfold isoString. destruct (civilFromDays (t / 86400000)) as [[y m] d].
    by exists y, m, d. }
  destruct Htext as (y & m & d & Hcivil & Htext).
  destruct (civilFromDays_inverse _ _ _ _ Hcivil) as (Hdays & Hm & Hd).
  assert (Hy : 1970 <= y <= 9999).
  { apply (civilFromDays_year (t / 86400000) y m d); [|done].
    Z.div_mod_to_equations. lia. }
  unfold parseIso. rewrite Htext.
  destruct (numbers_of_isoText y m d (t mod 86400000 / 3600000)
              (t mod 86400000 / 60000 mod 60) (t mod 86400000 / 1000 mod 60)
              (t mod 86400000 mod 1000))
    as (-> & -> & -> & -> & -> & -> & ->).
  rewrite digitsFrom_padded4 by lia.
  rewrite !digitsFrom_padded2 by (Z.div_mod_to_equations; lia).
  rewrite digitsFrom_padded3 by (Z.div_mod_to_equations; lia).
  rewrite Hdays.
  replace (t / 86400000 * 86400000 + t mod 86400000 / 3600000 * 3600000
           + t mod 86400000 / 60000 mod 60 * 60000
           + t mod 86400000 / 1000 mod 60 * 1000 + t mod 86400000 mod 1000)
    with t by (Z.div_mod_to_equations; lia).
  by rewrite Htext, String.eqb_refl.
Qed.

(** In the concrete runtime the timestamp of every clock reading of the
    years 1970 to 9999 is a date. *)
Lemma sample_timestamp_is_date (t : Z) :
  0 <= t < 253402300800000 ->
  dateGetTime (JStr (toISOString t)) = Some t.
Proof. apply parseIso_isoString. Qed.

End SampleDates.

(** ** The handlers on concrete requests *)

Section Concrete.
Import Sample Scenario.

(** C3: nearby-users is to return every stored profile with non-null
    coordinates and an id other than the caller's.  The filter tests the
    coordinates for truthiness: bob, whose stored latitude is the number
    0, is not returned to ann. *)
Lemma nearbyUsers_omits_profile_on_equator :
  bobOnEquator !! "user:bob"
  = Some (JObj [("id", JStr "bob"); ("email", JStr "bob@example.com");
                ("name", JStr "Bob"); ("avatar", JStr ":)");
                ("latitude", JNum 0); ("longitude", JNum 10);
                ("lastSeen", JStr "2023-11-14T22:13:21.000Z")])
  /\ response (serve (nearbyUsers (world (t0 + 2000)) (bearer "ann" None "")) bobOnEquator)
     = mkResponse 200 (JObj [("users", JArr [])]).
Proof. split; vm_compute; reflexivity. Qed.

(** Off the equator bob is returned. *)
Example nearbyUsers_returns_located_profile :
  response (serve (nearbyUsers (world (t0 + 2000)) (bearer "ann" None "")) bobLocated)
  = mkResponse 200
      (JObj [("users",
              JArr [JObj [("id", JStr "bob"); ("name", JStr "Bob");
                          ("avatar", JStr ":)"); ("latitude", JNum 1);
                          ("longitude", JNum 10);
                          ("lastSeen", JStr "2023-11-14T22:13:21.000Z")]])]).
Proof. vm_compute. reflexivity. Qed.

(** C7: the keys of one conversation are not to match the scan prefix of
    another, so that get-messages returns only the messages of the queried
    conversation.  The recipient id of send-message is unchecked text and
    the scan prefix does not end with the delimiter: the key of cat's
    message to the recipient id ann:bob starts with the prefix that
    get-messages scans for the conversation of ann and bob, and bob
    receives it. *)
Lemma getMessages_returns_foreign_message :
  catWrote !! "message:ann:bob:cat:1700000000000"
  = Some (messageFrom "cat" (JStr "ann:bob") (JStr "hello from cat") t0)
  /\ "message:" ++ conversationId "bob" (JStr "ann") = "message:ann:bob"
  /\ response (serve (getMessages (world (t0 + 2000)) (bearer "bob" None "ann")) catWrote)
     = mkResponse 200
         (JObj [("messages",
                 JArr [messageFrom "cat" (JStr "ann:bob") (JStr "hello from cat") t0])]).
Proof. repeat split; vm_compute; reflexivity. Qed.

(** A recipient id that only extends bob's id has the same effect: the key
    of ann's message to bobby starts with the prefix of the conversation of
    ann and bob. *)
Example getMessages_returns_message_to_longer_id :
  annWroteBobby !! "message:ann:bobby:1700000000000"
  = Some (messageFrom "ann" (JStr "bobby") (JStr "secret") t0)
  /\ response (serve (getMessages (world (t0 + 2000)) (bearer "bob" None "ann"))
                 annWroteBobby)
     = mkResponse 200
         (JObj [("messages",
                 JArr [messageFrom "ann" (JStr "bobby") (JStr "secret") t0])]).
Proof. repeat split; vm_compute; reflexivity. Qed.

(** C9 (as stated): a second update-location with the same arguments, one
    minute after the first, changes the store. *)
Lemma updateLocation_second_call_changes_store :
  let req := bearer "bob" (locationBody 1 2) "" in
  let once := newStore (serve (updateLocation (world (t0 + 1000)) req) signedUp) in
  let twice := newStore (serve (updateLocation (world (t0 + 61000)) req) once) in
  twice <> once.
Proof.
  intros req once twice Heq.
  apply (f_equal (fun m : Store => m !! "user:bob")) in Heq.
  vm_compute in Heq. discriminate.
Qed.

(** The scenario of the specification: ann and bob sign up, bob reports a
    position, ann sees exactly bob, ann writes "hi", bob receives it. *)
Example scenario :
  let s := newStore (serve (sendMessage (world (t0 + 3000))
                              (bearer "ann" (sendBody "bob" "hi") "")) bobLocated) in
  body (response (serve (getMessages (world (t0 + 4000)) (bearer "bob" None "ann")) s))
  = JObj [("messages", JArr [messageFrom "ann" (JStr "bob") (JStr "hi") (t0 + 3000)])].
Proof. vm_compute. reflexivity. Qed.

End Concrete.

(** ** The statements at concrete requests *)

Section Witnesses.
Import Sample Scenario.

Lemma sendMessage_then_getMessages_witness :
  exists messages,
    response
      (serve (getMessages (world (t0 + 4000)) (bearer "bob" None "ann"))
         (newStore
            (serve (sendMessage (world (t0 + 3000)) (bearer "ann" (sendBody "bob" "hi") ""))
               annWroteBobby)))
    = mkResponse 200 (JObj [("messages", JArr messages)])
    /\ messageFrom "ann" (JStr "bob") (JStr "hi") (t0 + 3000) ∈ messages
    /\ StronglySorted timestampLe messages.
Proof.
  apply (sendMessage_then_getMessages
           (world (t0 + 3000)) (bearer "ann" (sendBody "bob" "hi") "") annWroteBobby
           (userNamed "ann")
           (JObj [("recipientId", JStr "bob"); ("message", JStr "hi")])
           "bob" (JStr "hi")
           (world (t0 + 4000)) (bearer "bob" None "ann") (userNamed "bob")).
  - apply (messagesDated_preserved SendMessage); [|apply messagesDated_empty].
    intros n. eexists. vm_compute. reflexivity.
  - eexists. vm_compute. reflexivity.
  - reflexivity.
  - reflexivity.
  - reflexivity.
  - reflexivity.
  - vm_compute. reflexivity.
  - reflexivity.
  - right. split; reflexivity.
  - reflexivity.
Defined.

Lemma signup_profile_has_null_coordinates_witness :
  let served := serve (signup (registering "bob" t0)
                         (bearer "" (signupBody "bob@example.com" "Bob") "")) ∅ in
  response served
  = mkResponse 200 (JObj [("success", JBool true); ("user", userJson (mkAuthUser "bob"
       (JObj [("id", JStr "bob"); ("email", JStr "bob@example.com")])))])
  /\ exists profile,
       newStore served !! ("user:" ++ "bob") = Some profile
       /\ storeGet ("user:" ++ "bob") (newStore served) = profile
       /\ readProp profile "id" = Done (JStr "bob")
       /\ readProp profile "latitude" = Done JNull
       /\ readProp profile "longitude" = Done JNull.
Proof.
  apply (signup_profile_has_null_coordinates
           (registering "bob" t0) (bearer "" (signupBody "bob@example.com" "Bob") "") ∅
           (mkAuthUser "bob" (JObj [("id", JStr "bob"); ("email", JStr "bob@example.com")]))
           (JObj [("email", JStr "bob@example.com"); ("password", JStr "secret");
                  ("name", JStr "Bob"); ("avatar", JStr ":)")])
           (JStr "bob@example.com") (JStr "secret") (JStr "Bob") (JStr ":)"));
    reflexivity.
Defined.

Lemma updateLocation_without_profile_witness :
  serve (updateLocation (world (t0 + 1000)) (bearer "cat" (locationBody 1 2) "")) signedUp
  = mkServed signedUp [] (mkResponse 200 (JObj [("success", JBool true)])).
Proof.
  apply (updateLocation_without_profile
           (world (t0 + 1000)) (bearer "cat" (locationBody 1 2) "") signedUp
           (userNamed "cat") (JObj [("latitude", JNum 1); ("longitude", JNum 2)]));
    reflexivity.
Defined.


Lemma sendMessage_same_millisecond_overwrites_witness :
  let key := messageKey (conversationId "ann" (JStr "bob")) t0 in
  let first := newStore (serve (sendMessage (world t0)
                                  (bearer "ann" (sendBody "bob" "first") "")) ∅) in
  let second := newStore (serve (sendMessage (world t0)
                                   (bearer "bob" (sendBody "ann" "second") "")) first) in
  key = messageKey (conversationId "bob" (JStr "ann")) t0
  /\ first !! key = Some (messageFrom "ann" (JStr "bob") (JStr "first") t0)
  /\ second !! key = Some (messageFrom "bob" (JStr "ann") (JStr "second") t0)
  /\ second = newStore (serve (sendMessage (world t0)
                                 (bearer "bob" (sendBody "ann" "second") "")) ∅).
Proof.
  apply (sendMessage_same_millisecond_overwrites
           (world t0) (world t0)
           (bearer "ann" (sendBody "bob" "first") "")
           (bearer "bob" (sendBody "ann" "second") "") ∅
           (userNamed "ann") (userNamed "bob")
           (JObj [("recipientId", JStr "bob"); ("message", JStr "first")])
           (JObj [("recipientId", JStr "ann"); ("message", JStr "second")])
           (JStr "bob") (JStr "ann") (JStr "first") (JStr "second"));
    reflexivity.
Defined.

Lemma updateLocation_twice_is_latest_witness :
  let req := bearer "bob" (locationBody 1 2) "" in
  let once := newStore (serve (updateLocation (world (t0 + 1000)) req) signedUp) in
  let twice := newStore (serve (updateLocation (world (t0 + 61000)) req) once) in
  twice = newStore (serve (updateLocation (world (t0 + 61000)) req) signedUp)
  /\ (twice = once
      \/ exists user fs,
           authGetUser (world (t0 + 1000)) (accessToken req) = Done (UserFound user)
           /\ once !! ("user:" ++ uid user) = Some (JObj fs)
           /\ twice = <["user:" ++ uid user :=
                          JObj (assignField "lastSeen"
                                  (JStr (toISOString (clock (world (t0 + 61000)) 0%nat)))
                                  fs)]> once)
  /\ (forall key name,
        name <> "lastSeen" ->
        readProp (storeGet key twice) name = readProp (storeGet key once) name)
  /\ (clock (world (t0 + 61000)) 0%nat = clock (world (t0 + 1000)) 0%nat -> twice = once).
Proof.
  apply (updateLocation_twice_is_latest
           (world (t0 + 1000)) (world (t0 + 61000))
           (bearer "bob" (locationBody 1 2) "") signedUp);
    reflexivity.
Defined.

Lemma nearbyUsers_never_discloses_email_witness :
  let users := [JObj [("id", JStr "bob"); ("name", JStr "Bob");
                      ("avatar", JStr ":)"); ("latitude", JNum 1);
                      ("longitude", JNum 10);
                      ("lastSeen", JStr "2023-11-14T22:13:21.000Z")]] in
  Forall (fun u => fieldNames u = publicNames /\ "email" ∉ fieldNames u) users
  /\ forall s' : Store,
       withoutEmail <$> s' = withoutEmail <$> bobLocated ->
       response (serve (nearbyUsers (world (t0 + 2000)) (bearer "ann" None "")) s')
       = response (serve (nearbyUsers (world (t0 + 2000)) (bearer "ann" None "")) bobLocated).
Proof.
  apply (nearbyUsers_never_discloses_email
           (world (t0 + 2000)) (bearer "ann" None "") bobLocated).
  vm_compute. reflexivity.
Defined.

End Witnesses.

(** * Further properties of the handlers *)

Section Effects.
Context {R : JsRuntime}.

Lemma handler_store_cases
    (ep : Endpoint) (env : Env) (req : Request) (s : Store) :
  newStore (serve (handler ep env req) s) = s
  \/ exists key v,
       newStore (serve (handler ep env req) s) = <[key := v]> s
       /\ mayWrite ep key.
Proof.
  destruct ep; unfold handler; run_handler; split_cases;
    unfold storeSet; try (by left);
    right; eexists _, _; (split; [reflexivity|]); simpl;
    apply prefix_app.
Qed.

(** Whatever a handler answers, it removes no key, it leaves every key
    that is not of the kind the endpoint writes as it was (signup and
    update-location write profiles only, send-message writes messages
    only, nearby-users and get-messages write nothing), and it changes at
    most one key. *)
Theorem handler_write_set
    (ep : Endpoint) (env : Env) (req : Request) (s : Store) :
  let s' := newStore (serve (handler ep env req) s) in
  (forall k, is_Some (s !! k) -> is_Some (s' !! k))
  /\ (forall k, ~ mayWrite ep k -> s' !! k = s !! k)
  /\ (exists key, forall k, k <> key -> s' !! k = s !! k).
Proof.
  intros s'. subst s'.
  destruct (handler_store_cases ep env req s) as [->|(key & v & -> & Hkey)].
  - split; [done|]. split; [done|]. by exists "".
  - split; [|split].
    + intros k Hk. destruct (decide (key = k)) as [->|Hne].
      * rewrite lookup_insert_eq. by eexists.
      * by rewrite lookup_insert_ne.
    + intros k Hk. apply lookup_insert_ne. by intros ->.
    + exists key. intros k Hk. by apply lookup_insert_ne.
Qed.

(** A request that is not answered with 200 leaves the store as it was:
    a rejected signup, an unauthorized call, a body that cannot be read and
    a failing store write nothing. *)
Theorem failed_request_leaves_store
    (ep : Endpoint) (env : Env) (req : Request) (s : Store) :
  status (response (serve (handler ep env req) s)) <> 200 ->
  newStore (serve (handler ep env req) s) = s.
Proof.
  destruct ep; unfold handler; run_handler; split_cases; intros Hstatus;
    done.
Qed.

(** The answers of the handlers: the status is 200, 400, 401 or 500; only
    signup answers 400; signup, which resolves no token, never answers
    401; and every answer other than 200 carries an {error} body. *)
Theorem responses_classified
    (ep : Endpoint) (env : Env) (req : Request) (s : Store) :
  let r := response (serve (handler ep env req) s) in
  (status r = 200 \/ status r = 400 \/ status r = 401 \/ status r = 500)
  /\ (status r = 400 -> ep = Signup)
  /\ (status r = 401 -> authenticated ep = true)
  /\ (status r <> 200 -> exists text, body r = errorBody text).
Proof.
  destruct ep; unfold handler; run_handler; split_cases;
    (split; [auto|]); (split; [done|]); (split; [done|]);
    intros Hstatus; try done; by eexists.
Qed.

(** The lines that a handler writes itself: none when it answers 200, and
    otherwise exactly one, which starts with the label of the endpoint. *)
Lemma handler_logs_failure_once
    (ep : Endpoint) (env : Env) (req : Request) (s : Store) :
  let served := serve (handler ep env req) s in
  (status (response served) = 200 -> logged served = [])
  /\ (status (response served) <> 200 ->
      exists rest, logged served = [logLabel ep ++ rest]).
Proof.
  destruct ep; unfold handler; run_handler; split_cases;
    (split; [done|]); intros Hstatus; try done; by eexists.
Qed.

End Effects.

Section ProfileUpdate.
Context {R : JsRuntime}.

Lemma readProp_assigned (fs : list (string * JValue)) (name : string) (v : JValue) :
  readProp (JObj (assignField name v fs)) name = Done v.
Proof. simpl. by rewrite lookupField_assign_eq. Qed.

Lemma readProp_assigned_other
    (fs : list (string * JValue)) (name other : string) (v : JValue) :
  name <> other ->
  readProp (JObj (assignField other v fs)) name = readProp (JObj fs) name.
Proof. intros Hne. simpl. by rewrite lookupField_assign_ne. Qed.

(** After an update-location that finds the caller's profile, a read of
    the profile yields the latitude and the longitude of the request and
    the time of the call as lastSeen; every other property of the profile
    (id, email, name, avatar, ...) reads as before. *)
Theorem updateLocation_then_read
    (env : Env) (req : Request) (s : Store) (user : AuthUser)
    (payload latitude longitude : JValue) (fs : list (string * JValue)) :
  authGetUser env (accessToken req) = Done (UserFound user) ->
  jsonBody req = Some payload ->
  readProp payload "latitude" = Done latitude ->
  readProp payload "longitude" = Done longitude ->
  kvFault env 0%nat = None ->
  kvFault env 1%nat = None ->
  s !! ("user:" ++ uid user) = Some (JObj fs) ->
  let profile := storeGet ("user:" ++ uid user)
                   (newStore (serve (updateLocation env req) s)) in
  readProp profile "latitude" = Done latitude
  /\ readProp profile "longitude" = Done longitude
  /\ readProp profile "lastSeen" = Done (JStr (toISOString (clock env 0%nat)))
  /\ forall name, name <> "latitude" -> name <> "longitude" -> name <> "lastSeen" ->
       readProp profile name = readProp (JObj fs) name.
Proof.
  intros Hauth Hbody Hla Hlo Hk0 Hk1 Hprofile profile. subst profile.
  rewrite (updateLocation_served env req s user payload latitude longitude fs)
    by done.
  cbn [newStore]. unfold storeGet. rewrite lookup_insert_eq.
  unfold default. cbn [from_option id].
  split; [|split; [|split]].
  - rewrite !readProp_assigned_other by done. apply readProp_assigned.
  - rewrite readProp_assigned_other by done. apply readProp_assigned.
  - apply readProp_assigned.
  - intros name H1 H2 H3. by rewrite !readProp_assigned_other.
Qed.

End ProfileUpdate.

Section MessageKeys.
Context {R : JsRuntime}.

Lemma hasColon_app (a b : string) : hasColon (a ++ b) = hasColon a || hasColon b.
Proof.
  induction a as [|ch a IH]; [done|].
  rewrite append_cons. simpl. by rewrite IH, orb_assoc.
Qed.

Lemma pretty_N_go_no_colon (x : N) (s : string) :
  hasColon s = false -> hasColon (pretty_N_go x s) = false.
Proof.
  revert s. induction (N.lt_wf_0 x) as [x _ IH]; intros s Hs.
  destruct (decide (x = 0%N)) as [->|Hx]; [by rewrite pretty_N_go_0|].
  rewrite pretty_N_go_step by lia. apply IH.
  - apply N.div_lt; lia.
  - simpl. rewrite Hs, orb_false_r. unfold pretty_N_char.
    by repeat case_match.
Qed.

Lemma pretty_N_no_colon (x : N) : hasColon (pretty x) = false.
Proof.
  unfold pretty, pretty_N. destruct (decide (x = 0%N)); [done|].
  by apply pretty_N_go_no_colon.
Qed.

(** The decimal form of a clock reading holds no colon. *)
Lemma pretty_Z_no_colon (z : Z) : hasColon (pretty z) = false.
Proof.
  destruct z as [|p|p]; [done|apply (pretty_N_no_colon (N.pos p))|].
  change (pretty (Z.neg p)) with ("-" ++ pretty (N.pos p)).
  rewrite hasColon_app, pretty_N_no_colon. done.
Qed.

Lemma colon_app (d : string) : ":" ++ d = String ":" d.
Proof. reflexivity. Qed.

(** A text is cut at its last colon in one way only. *)
Lemma last_colon_unique (a b d1 d2 : string) :
  hasColon d1 = false -> hasColon d2 = false ->
  a ++ ":" ++ d1 = b ++ ":" ++ d2 -> a = b /\ d1 = d2.
Proof.
  intros H1 H2. revert b. induction a as [|ch a IH]; intros [|ch' b].
  - rewrite !append_empty, !colon_app. by intros [= ->].
  - rewrite append_empty, (append_cons ch' b), (colon_app d1). intros [= <- ->].
    rewrite hasColon_app, colon_app in H1. simpl in H1.
    by rewrite orb_true_r in H1.
  - rewrite append_empty, (append_cons ch a), (colon_app d2). intros [= -> <-].
    rewrite hasColon_app, colon_app in H2. simpl in H2.
    by rewrite orb_true_r in H2.
  - rewrite (append_cons ch a), (append_cons ch' b). intros [= -> H].
    by destruct (IH b H) as [-> ->].
Qed.

Lemma messageKey_parts (conversation1 conversation2 : string) (millis1 millis2 : Z) :
  messageKey conversation1 millis1 = messageKey conversation2 millis2 ->
  conversation1 = conversation2 /\ millis1 = millis2.
Proof.
  unfold messageKey. intros H.
  apply (append_inj_length "message:" "message:") in H as [_ H]; [|done].
  apply last_colon_unique in H as [-> H]; [|apply pretty_Z_no_colon..].
  split; [done|]. by apply (inj pretty).
Qed.

(** Two message keys are the same exactly for the same conversation id and
    the same millisecond: a send-message overwrites a stored message in
    no other case. *)
Theorem messageKey_injective (conversation1 conversation2 : string) (millis1 millis2 : Z) :
  messageKey conversation1 millis1 = messageKey conversation2 millis2
  <-> conversation1 = conversation2 /\ millis1 = millis2.
Proof.
  split; [apply messageKey_parts|]. by intros [-> ->].
Qed.

End MessageKeys.

Section TwoSends.
Context {R : JsRuntime}.

(** Two sends that differ in the conversation id or in the millisecond
    are both stored afterwards, and each is among the messages that a scan
    of its conversation returns. *)
Theorem sendMessage_twice_keeps_both
    (env1 env2 : Env) (req1 req2 : Request) (s : Store)
    (user1 user2 : AuthUser) (payload1 payload2 : JValue)
    (recipient1 recipient2 text1 text2 : JValue) :
  authGetUser env1 (accessToken req1) = Done (UserFound user1) ->
  jsonBody req1 = Some payload1 ->
  readProp payload1 "recipientId" = Done recipient1 ->
  readProp payload1 "message" = Done text1 ->
  kvFault env1 0%nat = None ->
  authGetUser env2 (accessToken req2) = Done (UserFound user2) ->
  jsonBody req2 = Some payload2 ->
  readProp payload2 "recipientId" = Done recipient2 ->
  readProp payload2 "message" = Done text2 ->
  kvFault env2 0%nat = None ->
  conversationId (uid user1) recipient1 <> conversationId (uid user2) recipient2
  \/ clock env1 0%nat <> clock env2 0%nat ->
  let conversation1 := conversationId (uid user1) recipient1 in
  let conversation2 := conversationId (uid user2) recipient2 in
  let message1 := messageFrom (uid user1) recipient1 text1 (clock env1 1%nat) in
  let message2 := messageFrom (uid user2) recipient2 text2 (clock env2 1%nat) in
  let second := newStore (serve (sendMessage env2 req2)
                            (newStore (serve (sendMessage env1 req1) s))) in
  second !! messageKey conversation1 (clock env1 0%nat) = Some message1
  /\ second !! messageKey conversation2 (clock env2 0%nat) = Some message2
  /\ message1 ∈ storeGetByPrefix ("message:" ++ conversation1) second
  /\ message2 ∈ storeGetByPrefix ("message:" ++ conversation2) second.
Proof.
  intros Ha1 Hb1 Hr1 Hm1 Hk1 Ha2 Hb2 Hr2 Hm2 Hk2 Hdiffer c1 c2 m1 m2 second.
  subst c1 c2 m1 m2 second.
  rewrite (sendMessage_served env1 req1 s user1 payload1 recipient1 text1) by done.
  rewrite (sendMessage_served env2 req2 _ user2 payload2 recipient2 text2) by done.
  cbn [newStore].
  assert (Hkeys : messageKey (conversationId (uid user2) recipient2) (clock env2 0%nat)
                  <> messageKey (conversationId (uid user1) recipient1) (clock env1 0%nat)).
  { intros [Hc Ht]%messageKey_parts. destruct Hdiffer; congruence. }
  assert (H1 : (<[messageKey (conversationId (uid user2) recipient2) (clock env2 0%nat)
                  := messageFrom (uid user2) recipient2 text2 (clock env2 1%nat)]>
                (<[messageKey (conversationId (uid user1) recipient1) (clock env1 0%nat)
                   := messageFrom (uid user1) recipient1 text1 (clock env1 1%nat)]> s))
               !! messageKey (conversationId (uid user1) recipient1) (clock env1 0%nat)
               = Some (messageFrom (uid user1) recipient1 text1 (clock env1 1%nat))).
  { rewrite lookup_insert_ne by done. apply lookup_insert_eq. }
  split; [exact H1|]. split; [apply lookup_insert_eq|]. split.
  - apply elem_of_storeGetByPrefix. eexists. split; [exact H1|apply messageKey_prefix].
  - apply elem_of_storeGetByPrefix. eexists.
    split; [apply lookup_insert_eq|apply messageKey_prefix].
Qed.

End TwoSends.

Section ProfilesInvariant.
Context {R : JsRuntime}.

Lemma profilesDefined_empty : profilesDefined ∅.
Proof. intros key v Hk. by rewrite lookup_empty in Hk. Qed.

Lemma profilesDefined_insert (s : Store) (key : string) (v : JValue) :
  profilesDefined s -> isNullish v = false -> profilesDefined (<[key := v]> s).
Proof.
  intros Hs Hv k w Hk Hp.
  destruct (decide (key = k)) as [->|Hne].
  - rewrite lookup_insert_eq in Hk. by injection Hk as <-.
  - rewrite lookup_insert_ne in Hk by done. by apply (Hs k).
Qed.

(** Every handler keeps the values under [user:] keys defined. *)
Lemma profilesDefined_preserved (ep : Endpoint) (env : Env) (req : Request) (s : Store) :
  profilesDefined s -> profilesDefined (newStore (serve (handler ep env req) s)).
Proof.
  intros Hs.
  destruct ep; unfold handler; run_handler; split_cases;
    unfold storeSet; try exact Hs; by apply profilesDefined_insert.
Qed.

Lemma built_profilesDefined (s : Store) : built s -> profilesDefined s.
Proof.
  induction 1 as [|ep env req s _ IH].
  - apply profilesDefined_empty.
  - by apply profilesDefined_preserved.
Qed.

Lemma isNearby_defined (userId : string) (u : JValue) :
  isNullish u = false -> exists keep, isNearby userId u = Done keep.
Proof.
  intros Hu. unfold isNearby, andThen.
  destruct u; try discriminate; simpl;
    repeat match goal with
      | |- context [if ?b then _ else _] => destruct b
      end; eauto.
Qed.

Lemma publicFields_defined (u : JValue) :
  isNullish u = false -> exists v, publicFields u = Done v.
Proof.
  intros Hu. unfold publicFields, andThen. destruct u; try discriminate; simpl; eauto.
Qed.

Lemma filterOutcome_defined (userId : string) (l : list JValue) :
  Forall (fun u => isNullish u = false) l ->
  exists kept, filterOutcome (isNearby userId) l = Done kept
               /\ Forall (fun u => isNullish u = false) kept.
Proof.
  induction 1 as [|u l Hu _ (kept & IH & Hkept)]; simpl.
  - by exists [].
  - destruct (isNearby_defined userId u Hu) as [keep ->]. rewrite IH.
    destruct keep; eexists; (split; [reflexivity|]); [by constructor|done].
Qed.

Lemma mapOutcome_defined (l : list JValue) :
  Forall (fun u => isNullish u = false) l ->
  exists users, mapOutcome publicFields l = Done users.
Proof.
  induction 1 as [|u l Hu _ (users & IH)]; simpl.
  - by exists [].
  - destruct (publicFields_defined u Hu) as [v ->]. rewrite IH. by eexists.
Qed.

Lemma profilesDefined_scan (s : Store) :
  profilesDefined s ->
  Forall (fun u => isNullish u = false) (storeGetByPrefix "user:" s).
Proof.
  intros Hs. apply Forall_forall. intros v Hv.
  apply elem_of_storeGetByPrefix in Hv as (key & Hkey & Hp). by apply (Hs key).
Qed.

(** On a store whose profiles are defined, the handler of nearby-users
    with a resolved caller and a working store hands a list of users to
    [c.json] with status 200, writes no line itself and leaves the store as
    it is. *)
Lemma nearbyUsers_served
    (env : Env) (req : Request) (s : Store) (caller : AuthUser) :
  profilesDefined s ->
  authGetUser env (accessToken req) = Done (UserFound caller) ->
  kvFault env 0%nat = None ->
  exists users,
    serve (nearbyUsers env req) s
    = mkServed s [] (mkResponse 200 (JObj [("users", JArr users)])).
Proof.
  intros Hs Hauth Hkv.
  destruct (filterOutcome_defined (uid caller) _ (profilesDefined_scan s Hs))
    as (kept & Hfilter & Hkept).
  destruct (mapOutcome_defined kept Hkept) as (users & Hmap).
  exists users. run_handler. rewrite Hauth. simpl. rewrite Hkv, Hfilter. simpl.
  by rewrite Hmap.
Qed.

(** On every store that requests have built from the empty store with
    clocks whose readings are dates, get-messages with a resolved caller
    and a working store answers 200 with the stored messages of the
    scanned prefix, none lost and none added, in ascending order of their
    timestamps. *)
Theorem getMessages_answers_on_reachable_stores
    (env : Env) (req : Request) (s : Store) (caller : AuthUser) :
  reachable s ->
  authGetUser env (accessToken req) = Done (UserFound caller) ->
  kvFault env 0%nat = None ->
  exists messages,
    serve (getMessages env req) s
    = mkServed s [] (mkResponse 200 (JObj [("messages", JArr messages)]))
    /\ messages ≡ₚ storeGetByPrefix
                     ("message:" ++ conversationId (uid caller)
                                      (JStr (paramRecipientId req))) s
    /\ StronglySorted timestampLe messages.
Proof.
  intros Hs Hauth Hkv.
  apply (getMessages_served env req s caller Hauth Hkv).
  by apply messagesDated_scan, reachable_messagesDated.
Qed.

(** A conversation without stored messages: when no key starts with the
    scanned prefix, get-messages answers 200 with the empty list. *)
Theorem getMessages_of_empty_conversation
    (env : Env) (req : Request) (s : Store) (caller : AuthUser) :
  authGetUser env (accessToken req) = Done (UserFound caller) ->
  kvFault env 0%nat = None ->
  (forall key, is_Some (s !! key) ->
     String.prefix ("message:" ++ conversationId (uid caller)
                                    (JStr (paramRecipientId req))) key = false) ->
  serve (getMessages env req) s
  = mkServed s [] (mkResponse 200 (JObj [("messages", JArr [])])).
Proof.
  intros Hauth Hkv Hnone.
  assert (Hscan : storeGetByPrefix
            ("message:" ++ conversationId (uid caller) (JStr (paramRecipientId req))) s
          = []).
  { destruct (storeGetByPrefix _ s) as [|v l] eqn:Hl; [done|].
    assert (Hv : v ∈ storeGetByPrefix
              ("message:" ++ conversationId (uid caller) (JStr (paramRecipientId req))) s)
      by (rewrite Hl; apply elem_of_cons; by left).
    apply elem_of_storeGetByPrefix in Hv as (key & Hkey & Hp).
    rewrite Hnone in Hp by (by eexists). done. }
  run_handler. rewrite Hauth. simpl. rewrite Hkv, Hscan. reflexivity.
Qed.

End ProfilesInvariant.

Section Tokens.
Context {R : JsRuntime}.

Lemma splitOn_one_word (word : string) :
  hasSpace word = false -> splitOn " "%char word = [word].
Proof.
  induction word as [|ch word IH]; [done|].
  simpl. destruct (Ascii.eqb ch " "); [done|].
  intros H. by rewrite IH.
Qed.

Lemma splitOn_first_word (word rest : string) :
  hasSpace word = false ->
  splitOn " "%char (word ++ " " ++ rest) = word :: splitOn " "%char rest.
Proof.
  induction word as [|ch word IH]; [done|].
  rewrite append_cons. simpl. destruct (Ascii.eqb ch " "); [done|].
  intros H. by rewrite IH.
Qed.

(** The access token is the second word of the Authorization header,
    whatever the first word is: the scheme is not checked, and what follows
    a second space is dropped.  Without a header, or with a header of one
    word, there is no token. *)
Theorem accessToken_is_second_word (req : Request) :
  (authorization req = None -> accessToken req = None)
  /\ (forall word, hasSpace word = false ->
        authorization req = Some word -> accessToken req = None)
  /\ (forall scheme token, hasSpace scheme = false -> hasSpace token = false ->
        authorization req = Some (scheme ++ " " ++ token) ->
        accessToken req = Some token)
  /\ (forall scheme token rest, hasSpace scheme = false -> hasSpace token = false ->
        authorization req = Some (scheme ++ " " ++ token ++ " " ++ rest) ->
        accessToken req = Some token).
Proof.
  unfold accessToken. split; [by intros ->|]. split; [|split].
  - intros word Hword ->. by rewrite splitOn_one_word.
  - intros scheme token Hscheme Htoken ->.
    by rewrite splitOn_first_word, splitOn_one_word.
  - intros scheme token rest Hscheme Htoken ->.
    by rewrite !splitOn_first_word.
Qed.

End Tokens.

Section Recipients.
Context {R : JsRuntime}.

Lemma append_assoc (a b c : string) : (a ++ b) ++ c = a ++ b ++ c.
Proof.
  induction a as [|ch a IH]; [done|].
  rewrite !append_cons. by rewrite IH.
Qed.

(** Send-message does not check the recipient: a body without recipientId
    is answered 200, and the message is stored with an undefined recipient
    under message:<sender>::<millis>. *)
Theorem sendMessage_without_recipient
    (env : Env) (req : Request) (s : Store) (user : AuthUser)
    (fs : list (string * JValue)) (text : JValue) :
  authGetUser env (accessToken req) = Done (UserFound user) ->
  jsonBody req = Some (JObj fs) ->
  lookupField "recipientId" fs = None ->
  readProp (JObj fs) "message" = Done text ->
  kvFault env 0%nat = None ->
  serve (sendMessage env req) s
  = mkServed
      (<["message:" ++ uid user ++ "::" ++ pretty (clock env 0%nat)
         := messageFrom (uid user) JUndefined text (clock env 1%nat)]> s)
      []
      (mkResponse 200
         (JObj [("success", JBool true);
                ("message", messageFrom (uid user) JUndefined text (clock env 1%nat))])).
Proof.
  intros Hauth Hbody Hnone Htext Hkv.
  rewrite (sendMessage_served env req s user (JObj fs) JUndefined text); try done.
  - unfold messageKey, conversationId, sortPair, joinElement. cbn [isNullish toString].
    by rewrite !append_assoc.
  - simpl. by rewrite Hnone.
Qed.

(** The conversation id is the two ids in ascending order with a colon
    between them. *)
Theorem conversationId_is_ordered_pair (a b : string) :
  exists low high,
    conversationId a (JStr b) = low ++ ":" ++ high
    /\ ((low = a /\ high = b) \/ (low = b /\ high = a))
    /\ String.leb low high = true.
Proof.
  rewrite conversationId_strings. unfold String.ltb, String.leb.
  destruct (String.compare b a) eqn:Hcompare.
  - exists a, b. split; [done|]. split; [by left|].
    by rewrite String.compare_antisym, Hcompare.
  - exists b, a. split; [done|]. split; [by right|]. by rewrite Hcompare.
  - exists a, b. split; [done|]. split; [by left|].
    by rewrite String.compare_antisym, Hcompare.
Qed.

End Recipients.

Section Journeys.
Context {R : JsRuntime}.

(** What a successful signup does. *)
Lemma signup_served
    (env : Env) (req : Request) (s : Store) (user : AuthUser)
    (payload email password name avatar : JValue) :
  jsonBody req = Some payload ->
  readProp payload "email" = Done email ->
  readProp payload "password" = Done password ->
  readProp payload "name" = Done name ->
  readProp payload "avatar" = Done avatar ->
  authCreateUser env email password name avatar = Done (Created user) ->
  kvFault env 0%nat = None ->
  serve (signup env req) s
  = mkServed
      (<["user:" ++ uid user
         := JObj (profileFields user email name avatar (clock env 0%nat))]> s)
      []
      (mkResponse 200 (JObj [("success", JBool true); ("user", userJson user)])).
Proof.
  intros Hbody He Hp Hn Ha Hcreated Hkv.
  run_handler. rewrite Hbody. simpl. rewrite He, Hp, Hn, Ha. simpl.
  rewrite Hcreated. simpl. by rewrite Hkv.
Qed.

(** Signing up and then reporting a position: the update-location of the
    new user finds the profile that signup wrote, and the profile then
    reads the reported latitude and longitude, the time of the report as
    lastSeen, and id, email, name and avatar as signed up. *)
Theorem signup_then_updateLocation
    (env env' : Env) (req req' : Request) (s : Store) (user caller : AuthUser)
    (payload email password name avatar payload' latitude longitude : JValue) :
  jsonBody req = Some payload ->
  readProp payload "email" = Done email ->
  readProp payload "password" = Done password ->
  readProp payload "name" = Done name ->
  readProp payload "avatar" = Done avatar ->
  authCreateUser env email password name avatar = Done (Created user) ->
  kvFault env 0%nat = None ->
  authGetUser env' (accessToken req') = Done (UserFound caller) ->
  uid caller = uid user ->
  jsonBody req' = Some payload' ->
  readProp payload' "latitude" = Done latitude ->
  readProp payload' "longitude" = Done longitude ->
  kvFault env' 0%nat = None ->
  kvFault env' 1%nat = None ->
  let signedUp := newStore (serve (signup env req) s) in
  let located := serve (updateLocation env' req') signedUp in
  response located = mkResponse 200 (JObj [("success", JBool true)])
  /\ newStore located !! ("user:" ++ uid user)
     = Some (JObj [("id", JStr (uid user)); ("email", email); ("name", name);
                   ("avatar", avatar); ("latitude", latitude);
                   ("longitude", longitude);
                   ("lastSeen", JStr (toISOString (clock env' 0%nat)))]).
Proof.
  intros Hbody He Hp Hn Ha Hcreated Hkv Hauth Hsame Hbody' Hla Hlo Hk0 Hk1
         signedUp located.
  subst signedUp located.
  rewrite (signup_served env req s user payload email password name avatar) by done.
  cbn [newStore].
  rewrite (updateLocation_served env' req' _ caller payload' latitude longitude
             (profileFields user email name avatar (clock env 0%nat)))
    by (done || (rewrite Hsame; apply lookup_insert_eq)).
  cbn [response newStore]. split; [done|].
  rewrite Hsame, lookup_insert_eq. reflexivity.
Qed.


End Journeys.

Section Conversations.
Context {R : JsRuntime}.

(** Both participants read the same conversation: get-messages of A with
    recipient id B and get-messages of B with recipient id A give the same
    answer on the same store. *)
Theorem getMessages_same_for_both_participants
    (env env' : Env) (req req' : Request) (s : Store) (a b : AuthUser) :
  authGetUser env (accessToken req) = Done (UserFound a) ->
  paramRecipientId req = uid b ->
  kvFault env 0%nat = None ->
  authGetUser env' (accessToken req') = Done (UserFound b) ->
  paramRecipientId req' = uid a ->
  kvFault env' 0%nat = None ->
  response (serve (getMessages env req) s)
  = response (serve (getMessages env' req') s).
Proof.
  intros Hauth Hparam Hkv Hauth' Hparam' Hkv'.
  run_handler. rewrite Hauth, Hauth'. simpl. rewrite Hkv, Hkv', Hparam, Hparam'.
  assert (Hconv : conversationId (uid a) (JStr (uid b))
                  = conversationId (uid b) (JStr (uid a))).
  { unfold conversationId.
    destruct (decide (uid a = uid b)) as [->|Hne]; [done|].
    by rewrite (sortPair_strings_swap (uid a) (uid b) Hne). }
  by rewrite Hconv.
Qed.

Lemma sorted_order (l : list JValue) (x y : JValue) :
  StronglySorted timestampLe l -> x ∈ l -> y ∈ l -> x <> y -> ~ timestampLe y x ->
  exists before between after, l = (before ++ x :: between ++ y :: after)%list.
Proof.
  intros Hsorted. induction Hsorted as [|z l Hsorted IH Hz]; intros Hx Hy Hne Hnot.
  - by apply elem_of_nil in Hx.
  - apply elem_of_cons in Hx as [->|Hx].
    + apply elem_of_cons in Hy as [->|Hy]; [done|].
      apply list_elem_of_split in Hy as (l1 & l2 & ->).
      by exists [], l1, l2.
    + apply elem_of_cons in Hy as [->|Hy].
      * rewrite Forall_forall in Hz. destruct Hnot. by apply Hz.
      * destruct (IH Hx Hy Hne Hnot) as (l1 & l2 & l3 & ->).
        by exists (z :: l1), l2, l3.
Qed.

(** Messages come back in the order of their timestamps: of two messages
    sent in one conversation at different milliseconds, the one with the
    earlier timestamp stands before the other in the answer of
    get-messages. *)
Theorem getMessages_lists_earlier_message_first
    (env1 env2 env3 : Env) (req1 req2 req3 : Request) (s : Store)
    (user1 user2 reader : AuthUser) (payload1 payload2 : JValue)
    (recipient1 recipient2 text1 text2 : JValue) (t1 t2 : Z) :
  messagesDated s ->
  authGetUser env1 (accessToken req1) = Done (UserFound user1) ->
  jsonBody req1 = Some payload1 ->
  readProp payload1 "recipientId" = Done recipient1 ->
  readProp payload1 "message" = Done text1 ->
  kvFault env1 0%nat = None ->
  authGetUser env2 (accessToken req2) = Done (UserFound user2) ->
  jsonBody req2 = Some payload2 ->
  readProp payload2 "recipientId" = Done recipient2 ->
  readProp payload2 "message" = Done text2 ->
  kvFault env2 0%nat = None ->
  conversationId (uid user2) recipient2 = conversationId (uid user1) recipient1 ->
  clock env1 0%nat <> clock env2 0%nat ->
  dateGetTime (JStr (toISOString (clock env1 1%nat))) = Some t1 ->
  dateGetTime (JStr (toISOString (clock env2 1%nat))) = Some t2 ->
  t1 < t2 ->
  authGetUser env3 (accessToken req3) = Done (UserFound reader) ->
  conversationId (uid reader) (JStr (paramRecipientId req3))
  = conversationId (uid user1) recipient1 ->
  kvFault env3 0%nat = None ->
  exists before between after,
    response
      (serve (getMessages env3 req3)
         (newStore (serve (sendMessage env2 req2)
                      (newStore (serve (sendMessage env1 req1) s)))))
    = mkResponse 200
        (JObj [("messages",
                JArr (before
                        ++ messageFrom (uid user1) recipient1 text1 (clock env1 1%nat)
                        :: between
                        ++ messageFrom (uid user2) recipient2 text2 (clock env2 1%nat)
                        :: after)%list)]).
Proof.
  intros Hs Ha1 Hb1 Hr1 Hm1 Hk1 Ha2 Hb2 Hr2 Hm2 Hk2 Hconv Hclock Ht1 Ht2 Hlt
         Ha3 Hconv3 Hk3.
  rewrite (sendMessage_served env1 req1 s user1 payload1 recipient1 text1) by done.
  cbn [newStore].
  rewrite (sendMessage_served env2 req2 _ user2 payload2 recipient2 text2) by done.
  cbn [newStore]. rewrite Hconv.
  set (conversation := conversationId (uid user1) recipient1).
  set (m1 := messageFrom (uid user1) recipient1 text1 (clock env1 1%nat)).
  set (m2 := messageFrom (uid user2) recipient2 text2 (clock env2 1%nat)).
  set (key1 := messageKey conversation (clock env1 0%nat)).
  set (key2 := messageKey conversation (clock env2 0%nat)).
  set (s2 := <[key2 := m2]> (<[key1 := m1]> s)).
  assert (Hkeys : key2 <> key1).
  { intros [_ Ht]%messageKey_parts. congruence. }
  assert (Hs2 : messagesDated s2).
  { apply messagesDated_insert_message;
      [apply messagesDated_insert_message; [done|]|];
      apply messageFrom_dated; by eexists. }
  destruct (getMessages_served env3 req3 s2 reader Ha3 Hk3)
    as (sorted & -> & Hperm & Hsorted).
  { apply messagesDated_scan; exact Hs2. }
  rewrite Hconv3 in Hperm. fold conversation in Hperm.
  destruct (sorted_order sorted m1 m2 Hsorted) as (l1 & l2 & l3 & ->).
  - rewrite Hperm. apply elem_of_storeGetByPrefix. exists key1. split.
    + subst s2. rewrite lookup_insert_ne by done. apply lookup_insert_eq.
    + apply messageKey_prefix.
  - rewrite Hperm. apply elem_of_storeGetByPrefix. exists key2. split.
    + apply lookup_insert_eq.
    + apply messageKey_prefix.
  - intros Heq. subst m1 m2. unfold messageFrom in Heq.
    assert (Hiso : toISOString (clock env1 1%nat) = toISOString (clock env2 1%nat))
      by congruence.
    rewrite Hiso in Ht1. rewrite Ht1 in Ht2. injection Ht2 as ->. lia.
  - unfold timestampLe. subst m1 m2. cbn [timestampOf messageFrom lookupField].
    simpl. rewrite Ht1, Ht2. lia.
  - by exists l1, l2, l3.
Qed.

End Conversations.

(** ** The application: the logger and the response sent *)

Section Fetch.
Context {R : JsRuntime}.

(** A request to the application is the request to its handler, in the
    world after the logger's reading of the clock, between the two lines of
    the logger, with the response serialised. *)
Lemma fetch_served (text : LoggerText) (ep : Endpoint) (env : Env) (req : Request) (s : Store) :
  exists reads : nat,
    fetch text ep env req s
    = mkServed
        (newStore (serve (handler ep (afterLogger env) req) s))
        (incomingLine text
           :: logged (serve (handler ep (afterLogger env) req) s)
           ++ [outgoingLine text
                 (status (response (serve (handler ep (afterLogger env) req) s)))
                 (clock env (S reads) - clock env 0%nat)])
        (sent (response (serve (handler ep (afterLogger env) req) s))).
Proof.
  destruct ep; unfold fetch, logger, onError, handler; run_handler; split_cases;
    eexists; reflexivity.
Qed.

Lemma fetch_newStore (text : LoggerText) (ep : Endpoint) (env : Env) (req : Request) (s : Store) :
  newStore (fetch text ep env req s)
  = newStore (serve (handler ep (afterLogger env) req) s).
Proof. destruct (fetch_served text ep env req s) as [reads ->]. reflexivity. Qed.

Lemma fetch_response (text : LoggerText) (ep : Endpoint) (env : Env) (req : Request) (s : Store) :
  response (fetch text ep env req s)
  = sent (response (serve (handler ep (afterLogger env) req) s)).
Proof. destruct (fetch_served text ep env req s) as [reads ->]. reflexivity. Qed.

(** The stores that the application builds are among the built ones. *)
Lemma fetch_built (text : LoggerText) (ep : Endpoint) (env : Env) (req : Request) (s : Store) :
  built s -> built (newStore (fetch text ep env req s)).
Proof. intros Hs. rewrite fetch_newStore. by apply built_served. Qed.

Lemma stringify_array (items : list JValue) :
  stringify (JArr items)
  = Some (JArr ((fun x => default JNull (stringify x)) <$> items)).
Proof. reflexivity. Qed.

Lemma stringify_object (fs : list (string * JValue)) :
  stringify (JObj fs)
  = Some (JObj (omap (fun kv : string * JValue => pair kv.1 <$> stringify kv.2) fs)).
Proof.
  simpl. do 2 f_equal. induction fs as [|[k x] l IH]; [done|].
  cbn [omap list_omap fst snd]. rewrite <- IH.
  by destruct (stringify x).
Qed.

Lemma lookupField_absent (name : string) (fs : list (string * JValue)) :
  name ∉ fs.*1 -> lookupField name fs = None.
Proof.
  induction fs as [|[k x] l IH]; [done|]. cbn. intros Hname.
  apply not_elem_of_cons in Hname as [Hne Hl].
  destruct (String.eqb k name) eqn:E; [|by apply IH].
  apply String.eqb_eq in E. congruence.
Qed.

(** A property of an object that was sent reads as the sent form of the
    property's value; a property that was left out reads undefined. *)
Lemma readProp_received (fs : list (string * JValue)) (name : string) :
  NoDup fs.*1 ->
  readProp (received (JObj fs)) name
  = Done (from_option received JUndefined (lookupField name fs)).
Proof.
  intros Hnd. unfold received at 1. rewrite stringify_object. cbn [default from_option id readProp].
  f_equal. induction fs as [|[k x] l IH]; [done|].
  cbn in Hnd. apply NoDup_cons in Hnd as [Hk Hl].
  cbn [omap list_omap fst snd lookupField].
  destruct (String.eqb k name) eqn:E.
  - apply String.eqb_eq in E as ->. cbn [from_option]. unfold received.
    destruct (stringify x) as [y|]; cbn.
    + by rewrite String.eqb_refl.
    + rewrite (IH Hl). by rewrite (lookupField_absent name l Hk).
  - destruct (stringify x) as [y|]; cbn; [rewrite E|]; by apply IH.
Qed.

(** Only a string is sent as a string. *)
Lemma received_string (v : JValue) (t : string) : received v = JStr t -> v = JStr t.
Proof.
  unfold received.
  destruct v; cbn [stringify default from_option id]; try done.
  by destruct (PrimFloat.is_finite x), (PrimFloat.is_zero x).
Qed.

(** A truthy number is sent as itself when it is finite and as null when
    it is not. *)
Lemma received_truthy_number (x : float) :
  truthy (JNum x) = true ->
  received (JNum x) = if PrimFloat.is_finite x then JNum x else JNull.
Proof.
  unfold received. cbn [stringify default from_option id truthy].
  destruct (PrimFloat.is_zero x); [done|].
  by destruct (PrimFloat.is_finite x).
Qed.

(** A truthy value is sent as null only when it is an infinite number. *)
Lemma received_truthy_null (v : JValue) :
  truthy v = true -> received v = JNull ->
  exists x, v = JNum x /\ PrimFloat.is_infinity x = true.
Proof.
  intros Hv Hnull. destruct v; try done.
  exists x. split; [done|].
  rewrite received_truthy_number in Hnull by done.
  cbn [truthy] in Hv. unfold PrimFloat.is_finite in Hnull.
  destruct (PrimFloat.is_zero x), (PrimFloat.is_nan x), (PrimFloat.is_infinity x);
    cbn [negb orb] in *; done.
Qed.

(** The answer of nearby-users as it is sent. *)
Lemma sent_users (code : Z) (nearby : list JValue) :
  sent (mkResponse code (JObj [("users", JArr nearby)]))
  = mkResponse code
      (JObj [("users", JArr ((fun x => default JNull (stringify x)) <$> nearby))]).
Proof.
  unfold sent, received. cbn [status body]. rewrite stringify_object.
  cbn [omap list_omap fst snd]. by rewrite stringify_array.
Qed.

Lemma publicFields_shape (u v : JValue) :
  publicFields u = Done v ->
  exists i name avatar latitude longitude lastSeen,
    v = JObj [("id", i); ("name", name); ("avatar", avatar);
              ("latitude", latitude); ("longitude", longitude);
              ("lastSeen", lastSeen)]
    /\ readProp u "id" = Done i
    /\ readProp u "latitude" = Done latitude
    /\ readProp u "longitude" = Done longitude.
Proof.
  unfold publicFields, andThen.
  destruct (readProp u "id") as [i|]; [|done].
  destruct (readProp u "name") as [name|]; [|done].
  destruct (readProp u "avatar") as [avatar|]; [|done].
  destruct (readProp u "latitude") as [latitude|]; [|done].
  destruct (readProp u "longitude") as [longitude|]; [|done].
  destruct (readProp u "lastSeen") as [lastSeen|]; [|done].
  intros [= <-]. by eexists _, _, _, _, _, _.
Qed.

(** A user of the list of nearby-users as it is sent: the id and the
    coordinates read as the sent forms of the profile's. *)
Lemma publicFields_received (p v i latitude longitude : JValue) :
  publicFields p = Done v ->
  readProp p "id" = Done i ->
  readProp p "latitude" = Done latitude ->
  readProp p "longitude" = Done longitude ->
  default JNull (stringify v) = received v
  /\ readProp (received v) "id" = Done (received i)
  /\ readProp (received v) "latitude" = Done (received latitude)
  /\ readProp (received v) "longitude" = Done (received longitude).
Proof.
  intros Hv Hi Hla Hlo.
  destruct (publicFields_shape p v Hv)
    as (i' & name & avatar & la & lo & ls & -> & Hi' & Hla' & Hlo').
  assert (i' = i) as -> by congruence.
  assert (la = latitude) as -> by congruence.
  assert (lo = longitude) as -> by congruence.
  assert (Hnd : NoDup ([("id", i); ("name", name); ("avatar", avatar);
                        ("latitude", latitude); ("longitude", longitude);
                        ("lastSeen", ls)].*1)).
  { cbn.
    repeat (apply NoDup_cons; split;
            [intros H; repeat (apply elem_of_cons in H as [H|H]; [discriminate H|]);
             by apply elem_of_nil in H|]).
    apply NoDup_nil_2. }
  split; [by unfold received; rewrite stringify_object|].
  by rewrite !readProp_received.
Qed.

(** What the handler of nearby-users hands to [c.json]: a list of users or
    an error. *)
Lemma nearbyUsers_body (env : Env) (req : Request) (s : Store) :
  (exists nearby,
     response (serve (nearbyUsers env req) s)
     = mkResponse 200 (JObj [("users", JArr nearby)]))
  \/ exists text, body (response (serve (nearbyUsers env req) s)) = errorBody text.
Proof.
  run_handler. split_cases; try (right; by eexists); left; by eexists.
Qed.


(** The log of a request to the application: the two lines of the logger
    middleware, and between them nothing when the answer is 200 and
    otherwise exactly one line of the handler, which starts with the label
    of the endpoint.  The time in the logger's second line is the
    difference of two readings of the clock. *)
Theorem failures_are_logged_once
    (text : LoggerText) (ep : Endpoint) (env : Env) (req : Request) (s : Store) :
  let served := fetch text ep env req s in
  exists reads : nat,
    let first := incomingLine text in
    let last := outgoingLine text (status (response served))
                  (clock env (S reads) - clock env 0%nat) in
    (status (response served) = 200 -> logged served = [first; last])
    /\ (status (response served) <> 200 ->
        exists rest, logged served = [first; logLabel ep ++ rest; last]).
Proof.
  intros served. subst served.
  destruct (fetch_served text ep env req s) as [reads ->].
  exists reads. cbn [response logged status sent].
  destruct (handler_logs_failure_once ep (afterLogger env) req s) as [Hok Hfailed].
  split.
  - intros Hstatus. by rewrite (Hok Hstatus).
  - intros Hstatus. destruct (Hfailed Hstatus) as [rest ->]. by exists rest.
Qed.

(** On every store that requests have built from the empty store, a
    nearby-users request with a resolved caller and a working store is
    answered 200 with a list of users, leaves the store as it is, and logs
    the two lines of the logger and no line of the handler: no stored
    profile makes the filter or the projection throw. *)
Theorem nearbyUsers_answers_on_built_stores
    (text : LoggerText) (env : Env) (req : Request) (s : Store) (caller : AuthUser) :
  built s ->
  authGetUser env (accessToken req) = Done (UserFound caller) ->
  kvFault env 0%nat = None ->
  exists users reads,
    fetch text NearbyUsers env req s
    = mkServed s
        [incomingLine text;
         outgoingLine text 200 (clock env (S reads) - clock env 0%nat)]
        (mkResponse 200 (JObj [("users", JArr users)])).
Proof.
  intros Hs Hauth Hkv.
  destruct (nearbyUsers_served (afterLogger env) req s caller) as [nearby Hserved];
    [by apply built_profilesDefined|done|done|].
  destruct (fetch_served text NearbyUsers env req s) as [reads ->].
  cbn [handler]. rewrite Hserved. cbn [newStore logged response status].
  rewrite sent_users. by eexists _, reads.
Qed.


(** In the answer that nearby-users sends, no user has the caller's id;
    every user stands for a stored profile whose latitude and longitude
    are truthy and carries them as they are serialised, so that a latitude
    or a longitude is sent as null only when the stored one is an infinite
    number. *)
Theorem nearbyUsers_sends_located_others
    (text : LoggerText) (env : Env) (req : Request) (s : Store)
    (users : list JValue) (caller : AuthUser) :
  authGetUser env (accessToken req) = Done (UserFound caller) ->
  body (response (fetch text NearbyUsers env req s)) = JObj [("users", JArr users)] ->
  Forall (fun u =>
            readProp u "id" <> Done (JStr (uid caller))
            /\ exists profile latitude longitude,
                 profile ∈ storeGetByPrefix "user:" s
                 /\ readProp profile "latitude" = Done latitude
                 /\ truthy latitude = true
                 /\ readProp profile "longitude" = Done longitude
                 /\ truthy longitude = true
                 /\ readProp u "latitude" = Done (received latitude)
                 /\ readProp u "longitude" = Done (received longitude)
                 /\ (received latitude = JNull ->
                     exists x, latitude = JNum x /\ PrimFloat.is_infinity x = true)
                 /\ (received longitude = JNull ->
                     exists x, longitude = JNum x /\ PrimFloat.is_infinity x = true))
         users.
Proof.
  intros Hauth Husers. rewrite fetch_response in Husers. cbn [handler] in Husers.
  destruct (nearbyUsers_body (afterLogger env) req s) as [[nearby Hbody]|[text' Hbody]].
  2: { destruct (response (serve (nearbyUsers (afterLogger env) req) s)) as [code b].
       cbn [body] in Hbody. subst b. by cbv in Husers. }
  assert (Hhanded :
    body (response (serve (nearbyUsers (afterLogger env) req) s))
    = JObj [("users", JArr nearby)]) by (by rewrite Hbody).
  rewrite Hbody, sent_users in Husers. cbn [body] in Husers.
  injection Husers as <-.
  apply nearbyUsers_users in Hhanded as (user & kept & Hauth' & Hfilter & Hmap).
  cbn [afterLogger authGetUser] in Hauth'. rewrite Hauth in Hauth'. simplify_eq.
  apply Forall_forall. intros u Hu.
  apply list_elem_of_fmap in Hu as (v & -> & Hv).
  destruct (mapOutcome_elem_of _ _ _ _ Hmap Hv) as (p & Hp & Hpv).
  destruct (filterOutcome_elem_of _ _ _ _ Hfilter Hp) as [Hstored Hnear].
  apply isNearby_true in Hnear as (i & la & lo & Hi & Hla & Hlo & Hne & Hta & Hto).
  destruct (publicFields_received p v i la lo Hpv Hi Hla Hlo)
    as (-> & Hri & Hrla & Hrlo).
  split.
  - rewrite Hri. intros [= Hsame]. apply received_string in Hsame as ->.
    cbn in Hne. by rewrite String.eqb_refl in Hne.
  - exists p, la, lo. repeat (split; [done|]).
    split; by apply received_truthy_null.
Qed.

End Fetch.

(** ** The further statements at concrete requests *)

Section FurtherWitnesses.
Import Sample Scenario Requests.

Lemma built_signedUp : built signedUp.
Proof. apply (built_served Signup), (built_served Signup), built_empty. Qed.

Lemma built_bobLocated : built bobLocated.
Proof. apply (built_served UpdateLocation), built_signedUp. Qed.

Lemma reachable_annWroteBobby : reachable annWroteBobby.
Proof.
  apply (reachable_served SendMessage); [apply reachable_empty|].
  intros n. eexists. vm_compute. reflexivity.
Qed.

Lemma signedUp_lookup (key : string) :
  is_Some (signedUp !! key) -> key = "user:ann" \/ key = "user:bob".
Proof.
  unfold signedUp.
  rewrite (signup_served (registering "bob" t0)
             (bearer "" (signupBody "bob@example.com" "Bob") "") ∅
             (mkAuthUser "bob" (JObj [("id", JStr "bob"); ("email", JStr "bob@example.com")]))
             (JObj [("email", JStr "bob@example.com"); ("password", JStr "secret");
                    ("name", JStr "Bob"); ("avatar", JStr ":)")])
             (JStr "bob@example.com") (JStr "secret") (JStr "Bob") (JStr ":)"))
    by reflexivity.
  cbn [newStore].
  rewrite (signup_served (registering "ann" t0)
             (bearer "" (signupBody "ann@example.com" "Ann") "") _
             (mkAuthUser "ann" (JObj [("id", JStr "ann"); ("email", JStr "ann@example.com")]))
             (JObj [("email", JStr "ann@example.com"); ("password", JStr "secret");
                    ("name", JStr "Ann"); ("avatar", JStr ":)")])
             (JStr "ann@example.com") (JStr "secret") (JStr "Ann") (JStr ":)"))
    by reflexivity.
  cbn [newStore uid]. intros [v Hv].
  destruct (decide ("user:ann" = key)) as [<-|Hann]; [by left|].
  rewrite lookup_insert_ne in Hv by done.
  destruct (decide ("user:bob" = key)) as [<-|Hbob]; [by right|].
  rewrite lookup_insert_ne in Hv by done. by rewrite lookup_empty in Hv.
Qed.

Lemma failed_request_leaves_store_witness :
  newStore (serve (handler SendMessage (storeDown t0)
                     (bearer "ann" (sendBody "bob" "hi") "")) signedUp)
  = signedUp.
Proof.
  apply (failed_request_leaves_store SendMessage (storeDown t0)
           (bearer "ann" (sendBody "bob" "hi") "") signedUp).
  vm_compute. discriminate.
Defined.

Lemma updateLocation_then_read_witness :
  let profile := storeGet ("user:" ++ "bob")
                   (newStore (serve (updateLocation (world (t0 + 1000))
                                       (bearer "bob" (locationBody 1 10) "")) signedUp)) in
  readProp profile "latitude" = Done (JNum 1)
  /\ readProp profile "longitude" = Done (JNum 10)
  /\ readProp profile "lastSeen" = Done (JStr (toISOString (t0 + 1000)))
  /\ forall name, name <> "latitude" -> name <> "longitude" -> name <> "lastSeen" ->
       readProp profile name
       = readProp (JObj (profileFields (userNamed "bob") (JStr "bob@example.com")
                           (JStr "Bob") (JStr ":)") t0)) name.
Proof.
  apply (updateLocation_then_read (world (t0 + 1000))
           (bearer "bob" (locationBody 1 10) "") signedUp (userNamed "bob")
           (JObj [("latitude", JNum 1); ("longitude", JNum 10)]) (JNum 1) (JNum 10)
           (profileFields (userNamed "bob") (JStr "bob@example.com")
              (JStr "Bob") (JStr ":)") t0));
    reflexivity.
Defined.

Lemma sendMessage_twice_keeps_both_witness :
  let message1 := messageFrom "ann" (JStr "bob") (JStr "first") t0 in
  let message2 := messageFrom "bob" (JStr "ann") (JStr "second") (t0 + 1) in
  let second := newStore (serve (sendMessage (world (t0 + 1))
                                   (bearer "bob" (sendBody "ann" "second") ""))
                            (newStore (serve (sendMessage (world t0)
                                                (bearer "ann" (sendBody "bob" "first") ""))
                                         ∅))) in
  second !! messageKey (conversationId "ann" (JStr "bob")) t0 = Some message1
  /\ second !! messageKey (conversationId "bob" (JStr "ann")) (t0 + 1) = Some message2
  /\ message1 ∈ storeGetByPrefix ("message:" ++ conversationId "ann" (JStr "bob")) second
  /\ message2 ∈ storeGetByPrefix ("message:" ++ conversationId "bob" (JStr "ann")) second.
Proof.
  apply (sendMessage_twice_keeps_both
           (world t0) (world (t0 + 1))
           (bearer "ann" (sendBody "bob" "first") "")
           (bearer "bob" (sendBody "ann" "second") "") ∅
           (userNamed "ann") (userNamed "bob")
           (JObj [("recipientId", JStr "bob"); ("message", JStr "first")])
           (JObj [("recipientId", JStr "ann"); ("message", JStr "second")])
           (JStr "bob") (JStr "ann") (JStr "first") (JStr "second"));
    try reflexivity.
  right. vm_compute. discriminate.
Defined.

Lemma getMessages_answers_on_reachable_stores_witness :
  exists messages,
    serve (getMessages (world (t0 + 2000)) (bearer "ann" None "bobby")) annWroteBobby
    = mkServed annWroteBobby [] (mkResponse 200 (JObj [("messages", JArr messages)]))
    /\ messages ≡ₚ storeGetByPrefix
                     ("message:" ++ conversationId "ann" (JStr "bobby")) annWroteBobby
    /\ StronglySorted timestampLe messages.
Proof.
  apply (getMessages_answers_on_reachable_stores
           (world (t0 + 2000)) (bearer "ann" None "bobby") annWroteBobby
           (userNamed "ann")).
  - apply reachable_annWroteBobby.
  - reflexivity.
  - reflexivity.
Defined.

Lemma getMessages_of_empty_conversation_witness :
  serve (getMessages (world (t0 + 2000)) (bearer "ann" None "bob")) signedUp
  = mkServed signedUp [] (mkResponse 200 (JObj [("messages", JArr [])])).
Proof.
  apply (getMessages_of_empty_conversation
           (world (t0 + 2000)) (bearer "ann" None "bob") signedUp (userNamed "ann")).
  - reflexivity.
  - reflexivity.
  - intros key [-> | ->]%signedUp_lookup; reflexivity.
Defined.

Lemma sendMessage_without_recipient_witness :
  serve (sendMessage (world t0)
           (bearer "ann" (Some (JObj [("message", JStr "to nobody")])) "")) signedUp
  = mkServed
      (<["message:" ++ "ann" ++ "::" ++ pretty t0
         := messageFrom "ann" JUndefined (JStr "to nobody") t0]> signedUp)
      []
      (mkResponse 200
         (JObj [("success", JBool true);
                ("message", messageFrom "ann" JUndefined (JStr "to nobody") t0)])).
Proof.
  apply (sendMessage_without_recipient
           (world t0) (bearer "ann" (Some (JObj [("message", JStr "to nobody")])) "")
           signedUp (userNamed "ann") [("message", JStr "to nobody")]
           (JStr "to nobody"));
    reflexivity.
Defined.

Lemma signup_then_updateLocation_witness :
  let signed := newStore (serve (signup (registering "cat" t0)
                                   (bearer "" (signupBody "cat@example.com" "Cat") ""))
                            signedUp) in
  let located := serve (updateLocation (world (t0 + 1000))
                          (bearer "cat" (locationBody 1 10) "")) signed in
  response located = mkResponse 200 (JObj [("success", JBool true)])
  /\ newStore located !! ("user:" ++ "cat")
     = Some (JObj [("id", JStr "cat"); ("email", JStr "cat@example.com");
                   ("name", JStr "Cat"); ("avatar", JStr ":)");
                   ("latitude", JNum 1); ("longitude", JNum 10);
                   ("lastSeen", JStr (toISOString (t0 + 1000)))]).
Proof.
  apply (signup_then_updateLocation
           (registering "cat" t0) (world (t0 + 1000))
           (bearer "" (signupBody "cat@example.com" "Cat") "")
           (bearer "cat" (locationBody 1 10) "") signedUp
           (mkAuthUser "cat" (JObj [("id", JStr "cat"); ("email", JStr "cat@example.com")]))
           (userNamed "cat")
           (JObj [("email", JStr "cat@example.com"); ("password", JStr "secret");
                  ("name", JStr "Cat"); ("avatar", JStr ":)")])
           (JStr "cat@example.com") (JStr "secret") (JStr "Cat") (JStr ":)")
           (JObj [("latitude", JNum 1); ("longitude", JNum 10)]) (JNum 1) (JNum 10));
    reflexivity.
Defined.

Lemma getMessages_same_for_both_participants_witness :
  response (serve (getMessages (world (t0 + 2000)) (bearer "ann" None "bob")) catWrote)
  = response (serve (getMessages (world (t0 + 3000)) (bearer "bob" None "ann")) catWrote).
Proof.
  apply (getMessages_same_for_both_participants
           (world (t0 + 2000)) (world (t0 + 3000))
           (bearer "ann" None "bob") (bearer "bob" None "ann") catWrote
           (userNamed "ann") (userNamed "bob"));
    reflexivity.
Defined.

Lemma getMessages_lists_earlier_message_first_witness :
  exists before between after,
    response
      (serve (getMessages (world (t0 + 9000)) (bearer "bob" None "ann"))
         (newStore (serve (sendMessage (world (t0 + 5000))
                             (bearer "bob" (sendBody "ann" "second") ""))
                      (newStore (serve (sendMessage (world t0)
                                          (bearer "ann" (sendBody "bob" "first") ""))
                                   annWroteBobby)))))
    = mkResponse 200
        (JObj [("messages",
                JArr (before
                        ++ messageFrom "ann" (JStr "bob") (JStr "first") t0
                        :: between
                        ++ messageFrom "bob" (JStr "ann") (JStr "second") (t0 + 5000)
                        :: after)%list)]).
Proof.
  apply (getMessages_lists_earlier_message_first
           (world t0) (world (t0 + 5000)) (world (t0 + 9000))
           (bearer "ann" (sendBody "bob" "first") "")
           (bearer "bob" (sendBody "ann" "second") "")
           (bearer "bob" None "ann") annWroteBobby
           (userNamed "ann") (userNamed "bob") (userNamed "bob")
           (JObj [("recipientId", JStr "bob"); ("message", JStr "first")])
           (JObj [("recipientId", JStr "ann"); ("message", JStr "second")])
           (JStr "bob") (JStr "ann") (JStr "first") (JStr "second")
           t0 (t0 + 5000));
    try reflexivity.
  - apply reachable_messagesDated, reachable_annWroteBobby.
  - vm_compute. discriminate.
Defined.

Lemma scan_isolated_for_ids_of_one_length_witness :
  ("ann" = "bob" /\ "bob" = "ann") \/ ("ann" = "ann" /\ "bob" = "bob").
Proof.
  apply (scan_isolated_for_ids_of_one_length "ann" "bob" "bob" "ann" t0);
    reflexivity.
Defined.

(** An unauthorized request logs three lines: the logger's, and between
    them the handler's. *)
Example unauthorized_request_logs_three_lines :
  logged (fetch (messagesRoute "ann") GetMessages (world t0) (mkRequest None None "ann") ∅)
  = ["<-- GET /make-server-648c7146/get-messages/ann";
     "Get messages unauthorized: Auth session missing!";
     "--> GET /make-server-648c7146/get-messages/ann 401 0ms"].
Proof. vm_compute. reflexivity. Qed.

(** A stored infinite longitude is sent as null. *)
Example nearbyUsers_sends_null_for_infinity :
  response (fetch nearbyRoute NearbyUsers (world (t0 + 2000)) (bearer "ann" None "")
              bobAtInfinity)
  = mkResponse 200
      (JObj [("users",
              JArr [JObj [("id", JStr "bob"); ("name", JStr "Bob");
                          ("avatar", JStr ":)"); ("latitude", JNum 1);
                          ("longitude", JNull);
                          ("lastSeen", JStr "2023-11-14T22:13:21.000Z")]])]).
Proof. vm_compute. reflexivity. Qed.

Lemma nearbyUsers_answers_on_built_stores_witness :
  exists users reads,
    fetch nearbyRoute NearbyUsers (world (t0 + 2000)) (bearer "ann" None "") bobLocated
    = mkServed bobLocated
        [incomingLine nearbyRoute;
         outgoingLine nearbyRoute 200
           (clock (world (t0 + 2000)) (S reads) - clock (world (t0 + 2000)) 0%nat)]
        (mkResponse 200 (JObj [("users", JArr users)])).
Proof.
  apply (nearbyUsers_answers_on_built_stores nearbyRoute
           (world (t0 + 2000)) (bearer "ann" None "") bobLocated (userNamed "ann")).
  - apply built_bobLocated.
  - reflexivity.
  - reflexivity.
Defined.


Lemma nearbyUsers_sends_located_others_witness :
  Forall (fun u =>
            readProp u "id" <> Done (JStr "ann")
            /\ exists profile latitude longitude,
                 profile ∈ storeGetByPrefix "user:" bobAtInfinity
                 /\ readProp profile "latitude" = Done latitude
                 /\ truthy latitude = true
                 /\ readProp profile "longitude" = Done longitude
                 /\ truthy longitude = true
                 /\ readProp u "latitude" = Done (received latitude)
                 /\ readProp u "longitude" = Done (received longitude)
                 /\ (received latitude = JNull ->
                     exists x, latitude = JNum x /\ PrimFloat.is_infinity x = true)
                 /\ (received longitude = JNull ->
                     exists x, longitude = JNum x /\ PrimFloat.is_infinity x = true))
    [JObj [("id", JStr "bob"); ("name", JStr "Bob"); ("avatar", JStr ":)");
           ("latitude", JNum 1); ("longitude", JNull);
           ("lastSeen", JStr "2023-11-14T22:13:21.000Z")]].
Proof.
  apply (nearbyUsers_sends_located_others nearbyRoute
           (world (t0 + 2000)) (bearer "ann" None "") bobAtInfinity _ (userNamed "ann")).
  - reflexivity.
  - vm_compute. reflexivity.
Defined.

End FurtherWitnesses.
